(** * stick-n-roll: the positioning controller and its state machine

    A shallow embedding of the [StickNRoll] class, with the properties of its
    strategy classifier, its layout state machine, its style resolver and its
    frame scheduling.  The class is embedded as released in 1.1.2; the
    functions of release 1.0.3 that differ are embedded in [Legacy].

    Conventions of the embedding.
    - Pixel quantities (offsets, sizes, scroll positions, spaces) are integers
      ([Z]); the source stores them as JavaScript numbers.
    - A method that mutates [this] is a function returning the new value of
      [this]; a method that also writes the style of the two DOM elements or
      talks to [window.requestAnimationFrame] works on a [Page].
    - What a method reads from the DOM ([window.scrollY],
      [container.clientWidth], ...) is a [Host] snapshot passed as an argument;
      one snapshot holds for the whole of one callback.
    - A style object is a finite map from property names to strings, and an
      assignment to a style property is a plain write of that map. *)

From stdpp Require Import gmap strings list fin_maps pretty.

Local Open Scope Z_scope.

(** ** Enumerations *)

(** Indexes of events in the events array. *)
Module Item.
Inductive t := Resize | Scroll.
Definition index (i : t) : nat :=
  match i with Resize => 0%nat | Scroll => 1%nat end.
End Item.

(** Viewport direction. *)
Module Direction.
Inductive t := Down | None | Up.
End Direction.

Module Strategy.
Inductive t := Both | None | Top.
End Strategy.

Module State.
Inductive t :=
| ContainerBottom | ColliderTop | ColliderBottom | None | TranslateY | Rest.
Definition all : list t :=
  [ContainerBottom; ColliderTop; ColliderBottom; None; TranslateY; Rest].
End State.

#[global] Instance Direction_eq_dec : EqDecision Direction.t.
Proof. solve_decision. Defined.
#[global] Instance Strategy_eq_dec : EqDecision Strategy.t.
Proof. solve_decision. Defined.
#[global] Instance State_eq_dec : EqDecision State.t.
Proof. solve_decision. Defined.

(** ** Options *)

Module OptionsType.
Record t := mk {
  spaceBottom : option Z;
  spaceTop : option Z;
  position : option string;
}.
End OptionsType.

(** [Pick<OptionsType, 'spaceBottom' | 'spaceTop'>] *)
Module Spaces.
Record t := mk {
  spaceBottom : option Z;
  spaceTop : option Z;
}.
End Spaces.

(** ** What the controller reads from the DOM *)

(** [offsetLeft] and [offsetTop] of one element. *)
Record Offsets := { offsetLeft : Z; offsetTop : Z }.

Record TypeElementCoords := { left : Z; top : Z }.

Record Host := {
  scrollX : Z;                       (* window.scrollX *)
  scrollY : Z;                       (* window.scrollY *)
  innerHeight : Z;                   (* window.innerHeight *)
  clientHeight : Z;                  (* container.clientHeight *)
  clientWidth : Z;                   (* container.clientWidth *)
  offsetHeight : Z;                  (* containerInner.offsetHeight *)
  containerOffsets : Offsets;        (* offsets of container *)
  containerAncestors : list Offsets; (* offsets of the elements that the walk
                                        of [_getCoords] visits after it *)
}.

(** ** The fields of the class *)

Record StickNRoll := {
  events : list bool;
  isRunningRequest : bool;
  translateY : Z;
  maxTranslateY : Z;
  prevElementHeight : Z;
  containerHeight : Z;
  containerWidth : Z;
  containerLeft : Z;
  containerTop : Z;
  prevContainerWidth : Z;
  prevContainerLeft : Z;
  prevContainerTop : Z;
  colliderHeight : Z;
  colliderTop : Z;
  prevColliderTop : Z;
  prevViewportScrollX : Z;
  prevViewportScrollY : Z;
  spaceTop : Z;
  prevSpaceTop : Z;
  spaceBottom : Z;
  prevSpaceBottom : Z;
  strategy : Strategy.t;
  prevStrategy : Strategy.t;
  prevState : State.t;
  listOfRules : gmap string string;
  rules : gmap string string;
}.

(** Assignment to one field: [eta] spells the record out, and [assign]
    replaces the chosen projection by the new value. *)
Definition eta (c : StickNRoll) : StickNRoll :=
  {| events := events c; isRunningRequest := isRunningRequest c;
     translateY := translateY c; maxTranslateY := maxTranslateY c;
     prevElementHeight := prevElementHeight c;
     containerHeight := containerHeight c; containerWidth := containerWidth c;
     containerLeft := containerLeft c; containerTop := containerTop c;
     prevContainerWidth := prevContainerWidth c;
     prevContainerLeft := prevContainerLeft c;
     prevContainerTop := prevContainerTop c;
     colliderHeight := colliderHeight c; colliderTop := colliderTop c;
     prevColliderTop := prevColliderTop c;
     prevViewportScrollX := prevViewportScrollX c;
     prevViewportScrollY := prevViewportScrollY c;
     spaceTop := spaceTop c; prevSpaceTop := prevSpaceTop c;
     spaceBottom := spaceBottom c; prevSpaceBottom := prevSpaceBottom c;
     strategy := strategy c; prevStrategy := prevStrategy c;
     prevState := prevState c;
     listOfRules := listOfRules c; rules := rules c |}.

Ltac assign proj v c :=
  let e := eval cbv [eta] in (eta c) in
  let e' := eval pattern (proj c) in e in
  match e' with
  | ?f _ => let r := eval cbv beta in (f v) in exact r
  end.

Definition set_events (v : list bool) (c : StickNRoll) : StickNRoll.
Proof. assign events v c. Defined.
Definition set_isRunningRequest (v : bool) (c : StickNRoll) : StickNRoll.
Proof. assign isRunningRequest v c. Defined.
Definition set_translateY (v : Z) (c : StickNRoll) : StickNRoll.
Proof. assign translateY v c. Defined.
Definition set_maxTranslateY (v : Z) (c : StickNRoll) : StickNRoll.
Proof. assign maxTranslateY v c. Defined.
Definition set_prevElementHeight (v : Z) (c : StickNRoll) : StickNRoll.
Proof. assign prevElementHeight v c. Defined.
Definition set_containerHeight (v : Z) (c : StickNRoll) : StickNRoll.
Proof. assign containerHeight v c. Defined.
Definition set_containerWidth (v : Z) (c : StickNRoll) : StickNRoll.
Proof. assign containerWidth v c. Defined.
Definition set_containerLeft (v : Z) (c : StickNRoll) : StickNRoll.
Proof. assign containerLeft v c. Defined.
Definition set_containerTop (v : Z) (c : StickNRoll) : StickNRoll.
Proof. assign containerTop v c. Defined.
Definition set_prevContainerWidth (v : Z) (c : StickNRoll) : StickNRoll.
Proof. assign prevContainerWidth v c. Defined.
Definition set_prevContainerLeft (v : Z) (c : StickNRoll) : StickNRoll.
Proof. assign prevContainerLeft v c. Defined.
Definition set_prevContainerTop (v : Z) (c : StickNRoll) : StickNRoll.
Proof. assign prevContainerTop v c. Defined.
Definition set_colliderHeight (v : Z) (c : StickNRoll) : StickNRoll.
Proof. assign colliderHeight v c. Defined.
Definition set_colliderTop (v : Z) (c : StickNRoll) : StickNRoll.
Proof. assign colliderTop v c. Defined.
Definition set_prevColliderTop (v : Z) (c : StickNRoll) : StickNRoll.
Proof. assign prevColliderTop v c. Defined.
Definition set_prevViewportScrollX (v : Z) (c : StickNRoll) : StickNRoll.
Proof. assign prevViewportScrollX v c. Defined.
Definition set_prevViewportScrollY (v : Z) (c : StickNRoll) : StickNRoll.
Proof. assign prevViewportScrollY v c. Defined.
Definition set_spaceTop (v : Z) (c : StickNRoll) : StickNRoll.
Proof. assign spaceTop v c. Defined.
Definition set_prevSpaceTop (v : Z) (c : StickNRoll) : StickNRoll.
Proof. assign prevSpaceTop v c. Defined.
Definition set_spaceBottom (v : Z) (c : StickNRoll) : StickNRoll.
Proof. assign spaceBottom v c. Defined.
Definition set_prevSpaceBottom (v : Z) (c : StickNRoll) : StickNRoll.
Proof. assign prevSpaceBottom v c. Defined.
Definition set_strategy (v : Strategy.t) (c : StickNRoll) : StickNRoll.
Proof. assign strategy v c. Defined.
Definition set_prevStrategy (v : Strategy.t) (c : StickNRoll) : StickNRoll.
Proof. assign prevStrategy v c. Defined.
Definition set_prevState (v : State.t) (c : StickNRoll) : StickNRoll.
Proof. assign prevState v c. Defined.
Definition set_rules (v : gmap string string) (c : StickNRoll) : StickNRoll.
Proof. assign rules v c. Defined.

(** [x |> f] applies the next statement [f] of a method body to [x]. *)
Notation "x |> f" := (f x) (at level 45, left associativity, only parsing).

(** ** The page: the controller, the styles it writes, the scheduler *)

Record Page := {
  this : StickNRoll;
  container_position : string;            (* container.style.position *)
  containerInner_style : gmap string string; (* containerInner.style *)
  animationFrames : nat;  (* callbacks given to requestAnimationFrame
                             that have not run yet *)
  listening : bool;       (* scroll listener and resize observer attached *)
}.

Definition set_this (v : StickNRoll) (p : Page) : Page :=
  {| this := v; container_position := container_position p;
     containerInner_style := containerInner_style p;
     animationFrames := animationFrames p; listening := listening p |}.
Definition set_container_position (v : string) (p : Page) : Page :=
  {| this := this p; container_position := v;
     containerInner_style := containerInner_style p;
     animationFrames := animationFrames p; listening := listening p |}.
Definition set_containerInner_style (v : gmap string string) (p : Page) : Page :=
  {| this := this p; container_position := container_position p;
     containerInner_style := v;
     animationFrames := animationFrames p; listening := listening p |}.
Definition set_animationFrames (v : nat) (p : Page) : Page :=
  {| this := this p; container_position := container_position p;
     containerInner_style := containerInner_style p;
     animationFrames := v; listening := listening p |}.
Definition set_listening (v : bool) (p : Page) : Page :=
  {| this := this p; container_position := container_position p;
     containerInner_style := containerInner_style p;
     animationFrames := animationFrames p; listening := v |}.

(** A method that only touches [this], run inside a page. *)
Definition on_this (f : StickNRoll -> StickNRoll) (p : Page) : Page :=
  set_this (f (this p)) p.

(** ** Construction and reset *)

(** The default rules: [position] comes from the options, the other four
    properties are ['initial']. *)
Definition defaultRules (position : string) : gmap string string :=
  {[ "width" := "initial"; "left" := "initial"; "top" := "initial";
     "position" := position; "transform" := "initial" ]}.

Definition constructor (options : option OptionsType.t) : StickNRoll :=
  {| prevSpaceBottom := default 0 (options ≫= OptionsType.spaceBottom);
     prevSpaceTop := default 0 (options ≫= OptionsType.spaceTop);
     spaceBottom := default 0 (options ≫= OptionsType.spaceBottom);
     spaceTop := default 0 (options ≫= OptionsType.spaceTop);
     listOfRules :=
       defaultRules (default "initial" (options ≫= OptionsType.position));
     colliderHeight := 0;
     colliderTop := 0;
     containerHeight := 0;
     containerLeft := 0;
     containerTop := 0;
     containerWidth := 0;
     events := [false; false];
     isRunningRequest := false;
     maxTranslateY := 0;
     prevColliderTop := 0;
     prevContainerLeft := 0;
     prevContainerTop := 0;
     prevContainerWidth := 0;
     prevElementHeight := 0;
     prevState := State.None;
     prevStrategy := Strategy.None;
     prevViewportScrollX := 0;
     prevViewportScrollY := 0;
     rules := ∅;
     strategy := Strategy.None;
     translateY := 0 |}.

(** Initialize (reset) properties to default values; the spaces, their
    previous values and [listOfRules] are not in the list. *)
Definition _init (c : StickNRoll) : StickNRoll :=
  {| colliderHeight := 0;
     colliderTop := 0;
     containerHeight := 0;
     containerLeft := 0;
     containerTop := 0;
     containerWidth := 0;
     events := [false; false];
     isRunningRequest := false;
     maxTranslateY := 0;
     prevColliderTop := 0;
     prevContainerLeft := 0;
     prevContainerTop := 0;
     prevContainerWidth := 0;
     prevElementHeight := 0;
     prevState := State.None;
     prevStrategy := Strategy.None;
     prevViewportScrollX := 0;
     prevViewportScrollY := 0;
     rules := ∅;
     strategy := Strategy.None;
     translateY := 0;
     spaceTop := spaceTop c; prevSpaceTop := prevSpaceTop c;
     spaceBottom := spaceBottom c; prevSpaceBottom := prevSpaceBottom c;
     listOfRules := listOfRules c |}.

(** ** Coordinates *)

(** The walk over the offset parents: the offsets of the element, then those
    of every element the loop reaches, are summed. *)
Definition _getCoords (element : Offsets) (walk : list Offsets)
  : TypeElementCoords :=
  foldl (fun coords e =>
           {| top := top coords + offsetTop e;
              left := left coords + offsetLeft e |})
        {| left := offsetLeft element; top := offsetTop element |} walk.

(** ** The style resolver *)

(** [n + 'px'] *)
Definition px (n : Z) : string := pretty n +:+ "px".

(** The loop over the keys of [listOfRules]: each of them is written, from
    the rules or else from the defaults. *)
Definition writeRules (defaults rules style : gmap string string)
  : gmap string string :=
  map_fold (fun key dflt st => <[key := default dflt (rules !! key)]> st)
           style defaults.

Definition _render (state : State.t) (h : Host) (p : Page) : Page :=
  let c := this p in
  let c :=
    if decide (state = State.ContainerBottom) then
      c |> set_translateY (maxTranslateY c)
        |> set_rules {[ "top" := px (spaceTop c);
                        "left" := "0px";
                        "position" := "sticky";
                        "width" := px (clientWidth h) ]}
    else if decide (state = State.ColliderBottom) then
      c |> set_translateY 0
        |> set_rules
             {[ "top" := px (colliderHeight c + spaceTop c - offsetHeight h);
                "left" := px (containerLeft c - scrollX h);
                "position" := "fixed";
                "width" := px (clientWidth h) ]}
    else if decide (state = State.ColliderTop) then
      c |> set_translateY 0
        |> set_rules {[ "top" := px (spaceTop c);
                        "left" := px (containerLeft c - scrollX h);
                        "position" := "fixed";
                        "width" := px (clientWidth h) ]}
    else if decide (state = State.None) then
      c |> set_translateY 0 |> set_rules ∅
    else if decide (state = State.TranslateY) then
      let c :=
        if decide (prevState c = State.ColliderTop) then
          set_translateY (prevColliderTop c - containerTop c) c
        else if decide (prevState c = State.ColliderBottom) then
          set_translateY (prevColliderTop c + colliderHeight c
                          - containerTop c - prevElementHeight c) c
        else if decide (prevState c = State.ContainerBottom) then
          set_translateY (containerHeight c - offsetHeight h) c
        else c in
      c |> set_rules
             {[ "position" := "relative";
                "transform" :=
                  "translate3d(0px, " +:+ pretty (translateY c) +:+ "px, 0px)" ]}
    else c in
  p |> set_this c
    |> set_container_position
         (if decide (state = State.ContainerBottom) then "relative"
          else "initial")
    |> set_containerInner_style
         (writeRules (listOfRules c) (rules c) (containerInner_style p)).

(** ** Direction, state and strategy *)

(** The scroll direction; [None] for horizontal scrolling or no scrolling. *)
Definition _getDirection (h : Host) (c : StickNRoll) : Direction.t :=
  if bool_decide (prevViewportScrollY c = scrollY h) then Direction.None
  else if bool_decide (prevViewportScrollY c < scrollY h) then Direction.Down
  else Direction.Up.

(** The test shared by the [ColliderTop] and [ColliderBottom] branches: the
    horizontal scroll, the container box or a space has changed. *)
Definition refreshNeeded (h : Host) (c : StickNRoll) : bool :=
  bool_decide (prevViewportScrollX c ≠ scrollX h)
  || bool_decide (prevContainerLeft c ≠ containerLeft c)
  || bool_decide (prevContainerWidth c ≠ containerWidth c)
  || bool_decide (prevContainerTop c ≠ containerTop c)
  || bool_decide (prevSpaceBottom c ≠ spaceBottom c)
  || bool_decide (prevSpaceTop c ≠ spaceTop c).

(** The state of [containerInner]; the second component is [this] after the
    call (one branch assigns [prevStrategy]). *)
Definition _getState (direction : Direction.t) (h : Host) (c : StickNRoll)
  : State.t * StickNRoll :=
  if decide (prevState c = State.ColliderTop) then
    if bool_decide (colliderTop c ≤ containerTop c) then (State.None, c)
    else if bool_decide (colliderTop c + offsetHeight h
                         >= containerTop c + containerHeight c)
    then (State.ContainerBottom, c)
    else if bool_decide (prevStrategy c = Strategy.Top)
            && bool_decide (offsetHeight h > colliderHeight c)
    then (State.TranslateY, set_prevStrategy (strategy c) c)
    else if bool_decide (strategy c = Strategy.Both)
            && bool_decide (direction = Direction.Down)
    then (State.TranslateY, c)
    else if refreshNeeded h c then (State.ColliderTop, c)
    else (State.Rest, c)
  else if decide (prevState c = State.ColliderBottom) then
    if bool_decide (colliderTop c ≤ containerTop c) then (State.None, c)
    else if bool_decide (colliderTop c + colliderHeight c
                         >= containerTop c + containerHeight c)
    then (State.ContainerBottom, c)
    else if bool_decide (offsetHeight h ≤ colliderHeight c)
    then (State.ColliderTop, c)
    else if bool_decide (direction = Direction.Up)
            || bool_decide (prevElementHeight c ≠ offsetHeight h)
    then (State.TranslateY, c)
    else if refreshNeeded h c then (State.ColliderBottom, c)
    else (State.Rest, c)
  else if decide (prevState c = State.ContainerBottom) then
    if bool_decide (colliderTop c ≤ containerTop c) then (State.None, c)
    else if bool_decide (direction = Direction.Up)
            && bool_decide (colliderTop c ≤ containerTop c + maxTranslateY c)
    then (State.ColliderTop, c)
    else if bool_decide (offsetHeight h
                         < containerTop c + containerHeight c - colliderTop c)
    then (State.ColliderTop, c)
    else if bool_decide (prevContainerWidth c ≠ containerWidth c)
    then (State.ContainerBottom, c)
    else (State.Rest, c)
  else if decide (prevState c = State.None) then
    if bool_decide (colliderTop c + offsetHeight h
                    >= containerTop c + containerHeight c)
    then (State.ContainerBottom, c)
    else if bool_decide (offsetHeight h < colliderHeight c)
            && bool_decide (colliderTop c >= containerTop c)
    then (State.ColliderTop, c)
    else if bool_decide (strategy c = Strategy.Both)
            && bool_decide (colliderTop c + colliderHeight c
                            >= containerTop c + offsetHeight h)
    then (State.ColliderBottom, c)
    else (State.Rest, c)
  else if decide (prevState c = State.TranslateY) then
    if bool_decide (containerHeight c - translateY c < offsetHeight h)
    then (State.ContainerBottom, c)
    else if bool_decide (offsetHeight h < colliderHeight c)
            || bool_decide (colliderTop c ≤ containerTop c + translateY c)
    then (State.ColliderTop, c)
    else if bool_decide (translateY c < maxTranslateY c)
            && bool_decide (colliderTop c + colliderHeight c
                            > containerTop c + translateY c + offsetHeight h)
    then (State.ColliderBottom, c)
    else (State.Rest, c)
  else (State.Rest, c).

(** The strategy that determines the further behaviour of [containerInner]. *)
Definition _getStrategy (h : Host) (c : StickNRoll) : Strategy.t :=
  if bool_decide (containerHeight c ≤ offsetHeight h) then Strategy.None
  else if bool_decide (colliderHeight c < offsetHeight h) then Strategy.Both
  else Strategy.Top.

(** ** Scroll and resize cycles *)

(** Calculate coordinates. *)
Definition _calcScroll (h : Host) (p : Page) : Page :=
  let p := on_this (fun c => set_colliderTop (scrollY h + spaceTop c) c) p in
  let '(state, c) :=
    _getState (_getDirection h (this p)) h (this p) in
  let p := set_this c p in
  let p :=
    if decide (state ≠ State.Rest) then
      p |> _render state h |> on_this (set_prevState state)
    else p in
  p |> on_this (fun c => set_prevColliderTop (colliderTop c) c)
    |> on_this (set_prevViewportScrollX (scrollX h))
    |> on_this (set_prevViewportScrollY (scrollY h)).

(** Calculate dimensions.  The method has three parts: the measurements,
    the choice between a render of [State.None] and a scroll cycle, and the
    assignments of the [prev...] fields. *)
Definition measured (h : Host) (c : StickNRoll) : StickNRoll :=
  let containerCoords :=
    _getCoords (containerOffsets h) (containerAncestors h) in
  c |> set_containerLeft (left containerCoords)
    |> set_containerTop (top containerCoords)
    |> set_containerHeight (clientHeight h)
    |> set_containerWidth (clientWidth h)
    |> (fun c =>
          set_colliderHeight (innerHeight h - spaceTop c - spaceBottom c) c)
    |> set_maxTranslateY (clientHeight h - offsetHeight h)
    |> (fun c => set_strategy (_getStrategy h c) c).

Definition remembered (h : Host) (c : StickNRoll) : StickNRoll :=
  c |> (fun c => set_prevContainerWidth (containerWidth c) c)
    |> (fun c => set_prevContainerLeft (containerLeft c) c)
    |> (fun c => set_prevContainerTop (containerTop c) c)
    |> set_prevElementHeight (offsetHeight h)
    |> (fun c => set_prevStrategy (strategy c) c)
    |> (fun c => set_prevSpaceBottom (spaceBottom c) c)
    |> (fun c => set_prevSpaceTop (spaceTop c) c).

Definition _calcDims (h : Host) (p : Page) : Page :=
  let p := on_this (measured h) p in
  let p :=
    if decide (strategy (this p) = Strategy.None) then
      if decide (prevStrategy (this p) ≠ strategy (this p))
      then _render State.None h p
      else p
    else _calcScroll h p in
  on_this (remembered h) p.

(** ** Scheduling *)

(** [this.events[i]] read as a condition. *)
Definition flag (i : Item.t) (c : StickNRoll) : bool :=
  bool_decide (events c !! Item.index i = Some true).

(** [this.events[i] = v]; the array always has its two cells. *)
Definition set_flag (i : Item.t) (v : bool) (c : StickNRoll) : StickNRoll :=
  set_events (<[Item.index i := v]> (events c)) c.

(** [if (this.events[i] === false) this.events[i] = true] *)
Definition raise (i : Item.t) (c : StickNRoll) : StickNRoll :=
  if bool_decide (events c !! Item.index i = Some false)
  then set_flag i true c
  else c.

(** The function handed to [window.requestAnimationFrame]. *)
Definition frameCallback (h : Host) (p : Page) : Page :=
  let p :=
    if flag Item.Resize (this p) then
      p |> on_this (set_flag Item.Resize false) |> _calcDims h
    else if flag Item.Scroll (this p) then
      p |> on_this (set_flag Item.Scroll false) |> _calcScroll h
    else p in
  on_this (set_isRunningRequest false) p.

Definition _request (p : Page) : Page :=
  if isRunningRequest (this p) then p
  else
    p |> on_this (set_isRunningRequest true)
      |> set_animationFrames (S (animationFrames p)).

Definition _resizeListener (p : Page) : Page :=
  p |> on_this (raise Item.Resize) |> _request.

Definition _scrollListener (p : Page) : Page :=
  p |> on_this (raise Item.Scroll) |> _request.

Definition _addListeners (p : Page) : Page := set_listening true p.

Definition _removeListeners (p : Page) : Page := set_listening false p.

(** ** The public methods *)

Definition enable (p : Page) : Page := _addListeners p.

Definition disable (h : Host) (p : Page) : Page :=
  p |> _removeListeners |> on_this _init |> _render State.None h.

Definition updateSpaces (spaces : Spaces.t) (p : Page) : Page :=
  p |> on_this (set_spaceBottom (default 0 (Spaces.spaceBottom spaces)))
    |> on_this (set_spaceTop (default 0 (Spaces.spaceTop spaces)))
    |> on_this _init
    |> _resizeListener.

(** ** Runs of a page *)

(** A page right after [new StickNRoll(container, containerInner, options)]:
    the two elements carry whatever style the document gave them. *)
Definition newPage (options : option OptionsType.t)
    (position : string) (style : gmap string string) : Page :=
  {| this := constructor options;
     container_position := position;
     containerInner_style := style;
     animationFrames := 0;
     listening := false |}.

(** What can happen to a page: the browser delivers a resize notification or
    a scroll event (to attached listeners only), it runs one of the pending
    animation frame callbacks, or the application calls a public method. *)
Inductive Action :=
| ResizeNotification
| ScrollEvent
| AnimationFrame
| Enable
| Disable
| UpdateSpaces (spaces : Spaces.t).

Definition step (p : Page) (a : Host * Action) : Page :=
  let h := a.1 in
  match a.2 with
  | ResizeNotification => if listening p then _resizeListener p else p
  | ScrollEvent => if listening p then _scrollListener p else p
  | AnimationFrame =>
      match animationFrames p with
      | O => p
      | S n => p |> set_animationFrames n |> frameCallback h
      end
  | Enable => enable p
  | Disable => disable h p
  | UpdateSpaces spaces => updateSpaces spaces p
  end.

(** The actions happen in the order of the list, each against the DOM
    readings that come with it. *)
Definition run (p : Page) (l : list (Host * Action)) : Page :=
  foldl step p l.

(** * The transition table and the classifier as the specification words them *)

(** §4.1: rules in order; [containerHeight ≤ elementHeight] gives [None], else
    [colliderHeight < elementHeight] gives [Both], else [Top]. *)
Definition classify (containerHeight elementHeight colliderHeight : Z)
  : Strategy.t :=
  if bool_decide (containerHeight ≤ elementHeight) then Strategy.None
  else if bool_decide (colliderHeight < elementHeight) then Strategy.Both
  else Strategy.Top.

(** §4.2: for each previous state the conditions in the listed order, each
    with the state it leads to; the first that holds wins, and [Rest] is the
    result when none does.  [refresh] is the last condition of [ColliderTop]
    and of [ColliderBottom]. *)
Definition transitionTable (refresh : bool) (direction : Direction.t)
    (h : Host) (c : StickNRoll) : list (bool * State.t) :=
  let elementHeight := offsetHeight h in
  match prevState c with
  | State.ColliderTop =>
      [ (bool_decide (colliderTop c ≤ containerTop c), State.None);
        (bool_decide (colliderTop c + elementHeight
                      >= containerTop c + containerHeight c),
         State.ContainerBottom);
        (bool_decide (prevStrategy c = Strategy.Top)
         && bool_decide (elementHeight > colliderHeight c),
         State.TranslateY);
        (bool_decide (strategy c = Strategy.Both)
         && bool_decide (direction = Direction.Down),
         State.TranslateY);
        (refresh, State.ColliderTop) ]
  | State.ColliderBottom =>
      [ (bool_decide (colliderTop c ≤ containerTop c), State.None);
        (bool_decide (colliderTop c + colliderHeight c
                      >= containerTop c + containerHeight c),
         State.ContainerBottom);
        (bool_decide (elementHeight ≤ colliderHeight c), State.ColliderTop);
        (bool_decide (direction = Direction.Up)
         || bool_decide (prevElementHeight c ≠ elementHeight),
         State.TranslateY);
        (refresh, State.ColliderBottom) ]
  | State.ContainerBottom =>
      [ (bool_decide (colliderTop c ≤ containerTop c), State.None);
        (bool_decide (direction = Direction.Up)
         && bool_decide (colliderTop c ≤ containerTop c + maxTranslateY c),
         State.ColliderTop);
        (bool_decide (elementHeight
                      < containerTop c + containerHeight c - colliderTop c),
         State.ColliderTop);
        (bool_decide (prevContainerWidth c ≠ containerWidth c),
         State.ContainerBottom) ]
  | State.None =>
      [ (bool_decide (colliderTop c + elementHeight
                      >= containerTop c + containerHeight c),
         State.ContainerBottom);
        (bool_decide (elementHeight < colliderHeight c)
         && bool_decide (colliderTop c >= containerTop c),
         State.ColliderTop);
        (bool_decide (strategy c = Strategy.Both)
         && bool_decide (colliderTop c + colliderHeight c
                         >= containerTop c + elementHeight),
         State.ColliderBottom) ]
  | State.TranslateY =>
      [ (bool_decide (containerHeight c - translateY c < elementHeight),
         State.ContainerBottom);
        (bool_decide (elementHeight < colliderHeight c)
         || bool_decide (colliderTop c ≤ containerTop c + translateY c),
         State.ColliderTop);
        (bool_decide (translateY c < maxTranslateY c)
         && bool_decide (colliderTop c + colliderHeight c
                         > containerTop c + translateY c + elementHeight),
         State.ColliderBottom) ]
  | State.Rest => []
  end.

Fixpoint firstMatch (table : list (bool * State.t)) : State.t :=
  match table with
  | [] => State.Rest
  | (condition, target) :: table =>
      if condition then target else firstMatch table
  end.

(** The refresh condition as §4.2 lists it: scroll-X, containerLeft,
    containerWidth or containerTop changed since the last cycle. *)
Definition boxChanged (h : Host) (c : StickNRoll) : bool :=
  bool_decide (prevViewportScrollX c ≠ scrollX h)
  || bool_decide (prevContainerLeft c ≠ containerLeft c)
  || bool_decide (prevContainerWidth c ≠ containerWidth c)
  || bool_decide (prevContainerTop c ≠ containerTop c).

(** * Notions used in the statements *)

(** The state that a scroll cycle computes. *)
Definition scrollState (h : Host) (c : StickNRoll) : State.t :=
  let c := set_colliderTop (scrollY h + spaceTop c) c in
  (_getState (_getDirection h c) h c).1.

(** The fields of [this] that neither cycle writes. *)
Definition sameSettings (c c' : StickNRoll) : Prop :=
  events c' = events c
  ∧ isRunningRequest c' = isRunningRequest c
  ∧ listOfRules c' = listOfRules c
  ∧ spaceTop c' = spaceTop c
  ∧ spaceBottom c' = spaceBottom c.

(** The fields of [this] that a scroll cycle leaves alone. *)
Definition sameBox (c c' : StickNRoll) : Prop :=
  containerHeight c' = containerHeight c
  ∧ containerWidth c' = containerWidth c
  ∧ containerLeft c' = containerLeft c
  ∧ containerTop c' = containerTop c
  ∧ colliderHeight c' = colliderHeight c
  ∧ maxTranslateY c' = maxTranslateY c
  ∧ strategy c' = strategy c.

(** The offset that a render of [TranslateY] computes, by the state that is
    left. *)
Definition handOff (h : Host) (c : StickNRoll) : Z :=
  if decide (prevState c = State.ColliderTop) then
    prevColliderTop c - containerTop c
  else if decide (prevState c = State.ColliderBottom) then
    prevColliderTop c + colliderHeight c - containerTop c - prevElementHeight c
  else if decide (prevState c = State.ContainerBottom) then
    containerHeight c - offsetHeight h
  else translateY c.

Definition translate3d (ty : Z) : string :=
  "translate3d(0px, " +:+ pretty ty +:+ "px, 0px)".

(** The signals of the browser alone: a resize notification, a scroll event,
    the run of a pending animation frame callback. *)
Inductive Signal := ResizeSignal | ScrollSignal | Tick.

Definition signalAction (s : Signal) : Action :=
  match s with
  | ResizeSignal => ResizeNotification
  | ScrollSignal => ScrollEvent
  | Tick => AnimationFrame
  end.

Definition signals (l : list (Host * Signal)) : list (Host * Action) :=
  prod_map id signalAction <$> l.

(** The guard and the number of pending callbacks agree. *)
Definition guarded (p : Page) : Prop :=
  animationFrames p = if isRunningRequest (this p) then 1%nat else 0%nat.

(** * Release 1.0.3

    The earlier release of the class.  It has no [prevColliderTop],
    [prevSpaceTop] and [prevSpaceBottom] fields (they stay 0 here),
    its events array holds [Event.None] or the kind of the event (read as
    [false] and [true]), and an unset style is the empty string.  The
    functions that differ from release 1.1.2 are embedded; [_getDirection],
    [_getStrategy], [_getCoords], [_request] and the listeners are the same. *)

Module Legacy.

Definition unset : string := EmptyString.

Definition defaultRules (position : string) : gmap string string :=
  {[ "width" := unset; "left" := unset; "top" := unset;
     "position" := position; "transform" := unset ]}.

Definition constructor (options : option OptionsType.t) : StickNRoll :=
  {| isRunningRequest := false;
     colliderHeight := 0;
     colliderTop := 0;
     containerHeight := 0;
     containerWidth := 0;
     containerLeft := 0;
     containerTop := 0;
     prevContainerWidth := 0;
     prevContainerLeft := 0;
     prevContainerTop := 0;
     prevElementHeight := 0;
     maxTranslateY := 0;
     translateY := 0;
     prevViewportScrollX := 0;
     prevViewportScrollY := 0;
     events := [false; false];
     strategy := Strategy.None;
     prevStrategy := Strategy.None;
     prevState := State.None;
     listOfRules :=
       defaultRules (default unset (options ≫= OptionsType.position));
     rules := ∅;
     spaceBottom := default 0 (options ≫= OptionsType.spaceBottom);
     spaceTop := default 0 (options ≫= OptionsType.spaceTop);
     prevColliderTop := 0; prevSpaceTop := 0; prevSpaceBottom := 0 |}.

Definition _render (state : State.t) (h : Host) (p : Page) : Page :=
  let c := this p in
  let c :=
    if decide (state = State.ContainerBottom) then
      c |> set_translateY (maxTranslateY c)
        |> set_rules {[ "top" := px (spaceTop c);
                        "left" := "0px";
                        "position" := "sticky";
                        "width" := px (clientWidth h) ]}
    else if decide (state = State.ColliderBottom) then
      c |> set_translateY 0
        |> set_rules
             {[ "top" := px (colliderHeight c + spaceTop c - offsetHeight h);
                "left" := px (containerLeft c - scrollX h);
                "position" := "fixed";
                "width" := px (clientWidth h) ]}
    else if decide (state = State.ColliderTop) then
      c |> set_translateY 0
        |> set_rules {[ "top" := px (spaceTop c);
                        "left" := px (containerLeft c - scrollX h);
                        "position" := "fixed";
                        "width" := px (clientWidth h) ]}
    else if decide (state = State.None) then
      c |> set_translateY 0 |> set_rules ∅
    else if decide (state = State.TranslateY) then
      let c :=
        if decide (prevState c = State.ColliderTop) then
          set_translateY (colliderTop c - containerTop c) c
        else if decide (prevState c = State.ColliderBottom) then
          set_translateY (colliderTop c + colliderHeight c
                          - containerTop c - prevElementHeight c) c
        else if decide (prevState c = State.ContainerBottom) then
          set_translateY (containerHeight c - offsetHeight h) c
        else c in
      c |> set_rules
             {[ "position" := "relative";
                "transform" :=
                  "translate3d(0px, " +:+ pretty (translateY c) +:+ "px, 0px)" ]}
    else c in
  p |> set_this c
    |> set_container_position
         (if decide (state = State.ContainerBottom) then "relative" else unset)
    |> set_containerInner_style
         (writeRules (listOfRules c) (rules c) (containerInner_style p)).

Definition refreshNeeded (h : Host) (c : StickNRoll) : bool :=
  bool_decide (prevViewportScrollX c ≠ scrollX h)
  || bool_decide (prevContainerLeft c ≠ containerLeft c)
  || bool_decide (prevContainerWidth c ≠ containerWidth c)
  || bool_decide (prevContainerTop c ≠ containerTop c).

Definition _getState (direction : Direction.t) (h : Host) (c : StickNRoll)
  : State.t * StickNRoll :=
  if decide (prevState c = State.ColliderTop) then
    if bool_decide (colliderTop c ≤ containerTop c) then (State.None, c)
    else if bool_decide (colliderTop c + offsetHeight h
                         >= containerTop c + containerHeight c)
    then (State.ContainerBottom, c)
    else if bool_decide (prevStrategy c = Strategy.Top)
            && bool_decide (offsetHeight h > colliderHeight c)
    then (State.TranslateY, set_prevStrategy (strategy c) c)
    else if bool_decide (strategy c = Strategy.Both)
            && bool_decide (direction = Direction.Down)
    then (State.TranslateY, c)
    else if refreshNeeded h c then (State.ColliderTop, c)
    else (State.Rest, c)
  else if decide (prevState c = State.ColliderBottom) then
    if bool_decide (colliderTop c ≤ containerTop c) then (State.None, c)
    else if bool_decide (colliderTop c + colliderHeight c
                         >= containerTop c + containerHeight c)
    then (State.ContainerBottom, c)
    else if bool_decide (offsetHeight h ≤ colliderHeight c)
    then (State.ColliderTop, c)
    else if bool_decide (direction = Direction.Up)
            || bool_decide (prevElementHeight c ≠ offsetHeight h)
    then (State.TranslateY, c)
    else if refreshNeeded h c then (State.ColliderBottom, c)
    else (State.Rest, c)
  else if decide (prevState c = State.ContainerBottom) then
    if bool_decide (colliderTop c ≤ containerTop c) then (State.None, c)
    else if bool_decide (direction = Direction.Up)
            && bool_decide (colliderTop c ≤ containerTop c + maxTranslateY c)
    then (State.ColliderTop, c)
    else if bool_decide (offsetHeight h
                         < containerTop c + containerHeight c - colliderTop c)
    then (State.ColliderTop, c)
    else if bool_decide (prevContainerWidth c ≠ containerWidth c)
    then (State.ContainerBottom, c)
    else (State.Rest, c)
  else if decide (prevState c = State.None) then
    if bool_decide (colliderTop c + offsetHeight h
                    >= containerTop c + containerHeight c)
    then (State.ContainerBottom, c)
    else if bool_decide (offsetHeight h < colliderHeight c)
            && bool_decide (colliderTop c >= containerTop c)
    then (State.ColliderTop, c)
    else if bool_decide (strategy c = Strategy.Both)
            && bool_decide (colliderTop c + colliderHeight c
                            >= containerTop c + offsetHeight h)
    then (State.ColliderBottom, c)
    else (State.Rest, c)
  else if decide (prevState c = State.TranslateY) then
    if bool_decide (containerHeight c - translateY c < offsetHeight h)
    then (State.ContainerBottom, c)
    else if bool_decide (offsetHeight h < colliderHeight c)
            || bool_decide (colliderTop c ≤ containerTop c + translateY c)
    then (State.ColliderTop, c)
    else if bool_decide (translateY c < maxTranslateY c)
            && bool_decide (colliderTop c + colliderHeight c
                            > containerTop c + translateY c + offsetHeight h)
    then (State.ColliderBottom, c)
    else (State.Rest, c)
  else (State.Rest, c).

Definition _calcScroll (h : Host) (p : Page) : Page :=
  let p := on_this (fun c => set_colliderTop (scrollY h + spaceTop c) c) p in
  let '(state, c) :=
    _getState (_getDirection h (this p)) h (this p) in
  let p := set_this c p in
  let p :=
    if decide (state ≠ State.Rest) then
      p |> _render state h |> on_this (set_prevState state)
    else p in
  p |> on_this (set_prevViewportScrollX (scrollX h))
    |> on_this (set_prevViewportScrollY (scrollY h)).

Definition remembered (h : Host) (c : StickNRoll) : StickNRoll :=
  c |> (fun c => set_prevContainerWidth (containerWidth c) c)
    |> (fun c => set_prevContainerLeft (containerLeft c) c)
    |> (fun c => set_prevContainerTop (containerTop c) c)
    |> set_prevElementHeight (offsetHeight h)
    |> (fun c => set_prevStrategy (strategy c) c).

Definition _calcDims (h : Host) (p : Page) : Page :=
  let p := on_this (measured h) p in
  let p :=
    if decide (strategy (this p) = Strategy.None) then
      if decide (prevStrategy (this p) ≠ strategy (this p))
      then _render State.None h p
      else p
    else _calcScroll h p in
  on_this (remembered h) p.

Definition frameCallback (h : Host) (p : Page) : Page :=
  let p :=
    if flag Item.Resize (this p) then
      p |> on_this (set_flag Item.Resize false) |> _calcDims h
    else if flag Item.Scroll (this p) then
      p |> on_this (set_flag Item.Scroll false) |> _calcScroll h
    else p in
  on_this (set_isRunningRequest false) p.

(** [this.events.fill(Event.None)] *)
Definition disable (p : Page) : Page :=
  p |> _removeListeners
    |> on_this (set_isRunningRequest false)
    |> on_this (fun c => set_events ((fun _ => false) <$> events c) c).

Definition updateSpaces (spaces : Spaces.t) (p : Page) : Page :=
  p |> on_this (set_spaceBottom (default 0 (Spaces.spaceBottom spaces)))
    |> on_this (set_spaceTop (default 0 (Spaces.spaceTop spaces)))
    |> _resizeListener.

Definition newPage (options : option OptionsType.t)
    (position : string) (style : gmap string string) : Page :=
  {| this := constructor options;
     container_position := position;
     containerInner_style := style;
     animationFrames := 0;
     listening := false |}.

Definition step (p : Page) (a : Host * Action) : Page :=
  let h := a.1 in
  match a.2 with
  | ResizeNotification => if listening p then _resizeListener p else p
  | ScrollEvent => if listening p then _scrollListener p else p
  | AnimationFrame =>
      match animationFrames p with
      | O => p
      | S n => p |> set_animationFrames n |> frameCallback h
      end
  | Enable => enable p
  | Disable => disable p
  | UpdateSpaces spaces => updateSpaces spaces p
  end.

Definition run (p : Page) (l : list (Host * Action)) : Page :=
  foldl step p l.

End Legacy.

(** * Scenarios *)

(** A page for the examples: a container 300 wide and 3000 high at (20, 100),
    an element 1000 high in it, a viewport 800 high scrolled to [y]. *)
Definition tallSidebar (y : Z) : Host :=
  {| scrollX := 0; scrollY := y; innerHeight := 800;
     clientHeight := 3000; clientWidth := 300; offsetHeight := 1000;
     containerOffsets := {| offsetLeft := 20; offsetTop := 100 |};
     containerAncestors := [] |}.

(** [enable()], then the first notification of the resize observer and its
    animation frame. *)
Definition enabled (host : Z → Host) : list (Host * Action) :=
  [(host 0, Enable); (host 0, ResizeNotification); (host 0, AnimationFrame)].

(** A scroll event with the viewport at [y], and its animation frame. *)
Definition scrolledTo (host : Z → Host) (y : Z) : list (Host * Action) :=
  [(host y, ScrollEvent); (host y, AnimationFrame)].

(** Down to 450 and 600, up to 550 and 350: the element is fixed at the
    bottom of the band, translated, then fixed at its top. *)
Definition sidebarAtColliderTop : Page :=
  run (newPage None "static" ∅)
      (enabled tallSidebar ++ scrolledTo tallSidebar 450
       ++ scrolledTo tallSidebar 600 ++ scrolledTo tallSidebar 550
       ++ scrolledTo tallSidebar 350).

(** The page of the README: [spaceBottom: 8, spaceTop: 64]. *)
Definition readmeOptions : option OptionsType.t :=
  Some (OptionsType.mk (Some 8) (Some 64) None).

Definition viewport800 : Host :=
  {| scrollX := 0; scrollY := 0; innerHeight := 800;
     clientHeight := 3000; clientWidth := 300; offsetHeight := 200;
     containerOffsets := {| offsetLeft := 0; offsetTop := 0 |};
     containerAncestors := [] |}.

(** A resize notification and a scroll event before the next frame. *)
Definition bothSignals : Page :=
  run (enable (newPage None "static" ∅))
      (signals [(viewport800, ResizeSignal); (viewport800, ScrollSignal)]).


Definition smallElement (y : Z) : Host :=
  {| scrollX := 0; scrollY := y; innerHeight := 800;
     clientHeight := 3000; clientWidth := 0; offsetHeight := 200;
     containerOffsets := {| offsetLeft := 0; offsetTop := 100 |};
     containerAncestors := [] |}.

(** A container 1000 high and an element 2000 high in it. *)
Definition tallElement (y : Z) : Host :=
  {| scrollX := 0; scrollY := y; innerHeight := 800;
     clientHeight := 1000; clientWidth := 300; offsetHeight := 2000;
     containerOffsets := {| offsetLeft := 20; offsetTop := 100 |};
     containerAncestors := [] |}.

(** * The DOM walks *)

(** An element with what the two walks read of it.  The offset parent and
    the parent are the elements themselves, so that a walk is a recursion on
    the element. *)
#[warnings="-register-all"]
Inductive HTMLElement := mkElement {
  tagName : string;
  elementOffsetLeft : Z;
  elementOffsetTop : Z;
  offsetParent : option HTMLElement;
  parentElement : option HTMLElement;
}.

(** The assignment in the condition of the loop of [_getCoords]:
    ['BODY' === element.tagName ? element.parentElement : element.offsetParent]. *)
Definition nextElement (element : HTMLElement) : option HTMLElement :=
  if bool_decide ("BODY" = tagName element) then parentElement element
  else offsetParent element.

(** The loop of [_getCoords], with [coords] as accumulator. *)
Fixpoint getCoordsLoop (element : HTMLElement) (coords : TypeElementCoords)
  : TypeElementCoords :=
  match nextElement element with
  | Some element =>
      getCoordsLoop element
        {| top := top coords + elementOffsetTop element;
           left := left coords + elementOffsetLeft element |}
  | None => coords
  end.

(** Get coordinates for passed element. *)
Definition _getCoordsOf (element : HTMLElement) : TypeElementCoords :=
  getCoordsLoop element
    {| left := elementOffsetLeft element; top := elementOffsetTop element |}.

(** The elements that the loop of [_getCoords] reaches after [element]. *)
Fixpoint offsetWalk (element : HTMLElement) : list HTMLElement :=
  match nextElement element with
  | Some element => element :: offsetWalk element
  | None => []
  end.

Definition offsetsOf (element : HTMLElement) : Offsets :=
  {| offsetLeft := elementOffsetLeft element;
     offsetTop := elementOffsetTop element |}.

(** The elements that [_observeTreeNodesFromCurrentToBody] hands to the
    resize observer, in order. *)
Fixpoint _observeTreeNodesFromCurrentToBody (containerInner : HTMLElement)
  : list HTMLElement :=
  containerInner ::
    (if bool_decide (tagName containerInner = "BODY") then []
     else match parentElement containerInner with
          | Some parent => _observeTreeNodesFromCurrentToBody parent
          | None => []
          end).

(** The chain of the parents of an element, the element first. *)
Fixpoint parentChain (element : HTMLElement) : list HTMLElement :=
  element ::
    match parentElement element with
    | Some parent => parentChain parent
    | None => []
    end.

(** * Further notions used in the statements *)

(** The part of [_render] that works on [this]. *)
Definition resolve (state : State.t) (h : Host) (c : StickNRoll)
  : StickNRoll :=
  this (_render state h
          {| this := c; container_position := "initial";
             containerInner_style := ∅; animationFrames := 0;
             listening := false |}).

(** What a scroll cycle that computes [Rest] assigns. *)
Definition settle (h : Host) (c : StickNRoll) : StickNRoll :=
  c |> set_colliderTop (scrollY h + spaceTop c)
    |> (fun c => set_prevColliderTop (colliderTop c) c)
    |> set_prevViewportScrollX (scrollX h)
    |> set_prevViewportScrollY (scrollY h).

(** The states that [_getState] can return from each previous state. *)
Definition successors (prev : State.t) : list State.t :=
  match prev with
  | State.ColliderTop =>
      [State.None; State.ContainerBottom; State.TranslateY;
       State.ColliderTop; State.Rest]
  | State.ColliderBottom =>
      [State.None; State.ContainerBottom; State.ColliderTop;
       State.TranslateY; State.ColliderBottom; State.Rest]
  | State.ContainerBottom =>
      [State.None; State.ColliderTop; State.ContainerBottom; State.Rest]
  | State.None =>
      [State.ContainerBottom; State.ColliderTop; State.ColliderBottom;
       State.Rest]
  | State.TranslateY =>
      [State.ContainerBottom; State.ColliderTop; State.ColliderBottom;
       State.Rest]
  | State.Rest => [State.Rest]
  end.

(** In the states without offset the stored offset is 0. *)
Definition docked (c : StickNRoll) : Prop :=
  prevState c ∈ [State.None; State.ColliderTop; State.ColliderBottom] →
  translateY c = 0.

(** What holds of [this] between two callbacks. *)
Definition settled (c : StickNRoll) : Prop :=
  prevContainerWidth c = containerWidth c
  ∧ prevContainerLeft c = containerLeft c
  ∧ prevContainerTop c = containerTop c
  ∧ prevStrategy c = strategy c
  ∧ maxTranslateY c = containerHeight c - prevElementHeight c
  ∧ length (events c) = 2%nat
  ∧ docked c.

(** The actions other than a call of [updateSpaces]. *)
Definition keepsSpaces (a : Host * Action) : Prop :=
  match a.2 with UpdateSpaces _ => False | _ => True end.

(** ** Inputs of the state machine, one for each transition *)

(** A value of [this] with the container at the top of the page and nothing
    changed since the last cycle but what the arguments say. *)
Definition stateInput (prev : State.t) (strategy : Strategy.t)
    (colliderTop colliderHeight containerHeight : Z)
    (translateY maxTranslateY containerWidth prevElementHeight : Z)
  : StickNRoll :=
  constructor None
    |> set_prevState prev
    |> set_strategy strategy |> set_prevStrategy strategy
    |> set_colliderTop colliderTop |> set_colliderHeight colliderHeight
    |> set_containerHeight containerHeight
    |> set_translateY translateY |> set_maxTranslateY maxTranslateY
    |> set_containerWidth containerWidth
    |> set_prevElementHeight prevElementHeight.

(** Readings with an element [elementHeight] high and [window.scrollX]. *)
Definition hostInput (elementHeight scrollX : Z) : Host :=
  {| scrollX := scrollX; scrollY := 0; innerHeight := 0;
     clientHeight := 0; clientWidth := 0; offsetHeight := elementHeight;
     containerOffsets := {| offsetLeft := 0; offsetTop := 0 |};
     containerAncestors := [] |}.

(** For each previous state and each state it can lead to, a direction,
    readings and a value of [this] that make the transition. *)
Definition reach (prev next : State.t) : Direction.t * Host * StickNRoll :=
  let input := stateInput prev in
  match prev, next with
  | State.ColliderTop, State.None =>
      (Direction.None, hostInput 100 0,
       input Strategy.Top 0 800 1000 0 0 0 0)
  | State.ColliderTop, State.ContainerBottom =>
      (Direction.None, hostInput 100 0,
       input Strategy.Top 10 800 50 0 0 0 0)
  | State.ColliderTop, State.TranslateY =>
      (Direction.Down, hostInput 100 0,
       input Strategy.Both 10 800 1000 0 0 0 0)
  | State.ColliderTop, State.ColliderTop =>
      (Direction.None, hostInput 100 5,
       input Strategy.Top 10 800 1000 0 0 0 0)
  | State.ColliderTop, _ =>
      (Direction.None, hostInput 100 0,
       input Strategy.Top 10 800 1000 0 0 0 0)
  | State.ColliderBottom, State.None =>
      (Direction.None, hostInput 900 0,
       input Strategy.Both 0 800 2000 0 0 0 900)
  | State.ColliderBottom, State.ContainerBottom =>
      (Direction.None, hostInput 900 0,
       input Strategy.Both 10 800 100 0 0 0 900)
  | State.ColliderBottom, State.ColliderTop =>
      (Direction.None, hostInput 100 0,
       input Strategy.Both 10 800 1000 0 0 0 900)
  | State.ColliderBottom, State.TranslateY =>
      (Direction.Up, hostInput 900 0,
       input Strategy.Both 10 800 2000 0 0 0 900)
  | State.ColliderBottom, State.ColliderBottom =>
      (Direction.None, hostInput 900 5,
       input Strategy.Both 10 800 2000 0 0 0 900)
  | State.ColliderBottom, _ =>
      (Direction.None, hostInput 900 0,
       input Strategy.Both 10 800 2000 0 0 0 900)
  | State.ContainerBottom, State.None =>
      (Direction.None, hostInput 100 0,
       input Strategy.Top 0 800 1000 0 0 0 0)
  | State.ContainerBottom, State.ColliderTop =>
      (Direction.None, hostInput 100 0,
       input Strategy.Top 10 800 1000 0 0 0 0)
  | State.ContainerBottom, State.ContainerBottom =>
      (Direction.None, hostInput 1000 0,
       input Strategy.Top 10 800 1000 0 0 5 0)
  | State.ContainerBottom, _ =>
      (Direction.None, hostInput 1000 0,
       input Strategy.Top 10 800 1000 0 0 0 0)
  | State.None, State.ContainerBottom =>
      (Direction.None, hostInput 100 0,
       input Strategy.Top 0 800 50 0 0 0 0)
  | State.None, State.ColliderTop =>
      (Direction.None, hostInput 100 0,
       input Strategy.Top 0 800 1000 0 0 0 0)
  | State.None, State.ColliderBottom =>
      (Direction.None, hostInput 900 0,
       input Strategy.Both 200 800 2000 0 0 0 0)
  | State.None, _ =>
      (Direction.None, hostInput 900 0,
       input Strategy.Both 0 800 2000 0 0 0 0)
  | State.TranslateY, State.ContainerBottom =>
      (Direction.None, hostInput 100 0,
       input Strategy.Both 0 800 100 50 0 0 0)
  | State.TranslateY, State.ColliderTop =>
      (Direction.None, hostInput 900 0,
       input Strategy.Both 50 800 2000 100 1100 0 0)
  | State.TranslateY, State.ColliderBottom =>
      (Direction.None, hostInput 900 0,
       input Strategy.Both 500 800 2000 100 1100 0 0)
  | State.TranslateY, _ =>
      (Direction.None, hostInput 900 0,
       input Strategy.Both 150 800 2000 100 1100 0 0)
  | State.Rest, _ =>
      (Direction.None, hostInput 0 0, input Strategy.None 0 0 0 0 0 0 0)
  end.

(** The page in state [None] with the collider top at the container top and
    an element 100 high in a container 1000 high. *)
Definition atContainerTop : StickNRoll :=
  stateInput State.None Strategy.Top 0 800 1000 0 900 0 100.

(** The page in state [None] scrolled so that the collider top is at the
    container top: an element 200 high, container at 100. *)
Definition boundaryPage : Page :=
  run (newPage None "static" ∅) (enabled smallElement).

(** ** The spaces between two resize cycles *)

(** The spaces of the last resize cycle are the spaces. *)
Definition spacesRemembered (c : StickNRoll) : Prop :=
  prevSpaceTop c = spaceTop c ∧ prevSpaceBottom c = spaceBottom c.

(** No resize cycle has measured the page since the last reset. *)
Definition unmeasured (c : StickNRoll) : Prop :=
  strategy c = Strategy.None
  ∧ colliderHeight c = 0
  ∧ containerTop c = 0
  ∧ containerHeight c = 0
  ∧ maxTranslateY c = 0
  ∧ prevState c ∈ [State.None; State.ContainerBottom].

Definition synced (c : StickNRoll) : Prop :=
  spacesRemembered c ∨ unmeasured c.

(** The element height that comes with every action is not negative, as
    [offsetHeight] is in a browser. *)
Definition realHeights (l : list (Host * Action)) : Prop :=
  Forall (fun a => 0 ≤ offsetHeight a.1) l.

(** The spaces, their previous values and the default rules are those of the
    constructor. *)
Definition asConstructed (options : option OptionsType.t) (c : StickNRoll)
  : Prop :=
  spaceTop c = spaceTop (constructor options)
  ∧ spaceBottom c = spaceBottom (constructor options)
  ∧ prevSpaceTop c = prevSpaceTop (constructor options)
  ∧ prevSpaceBottom c = prevSpaceBottom (constructor options)
  ∧ listOfRules c = listOfRules (constructor options).

(** A raised resize flag or a set guard has its callback. *)
Definition awaited (p : Page) : Prop :=
  flag Item.Resize (this p) = true ∨ isRunningRequest (this p) = true →
  (0 < animationFrames p)%nat.

(** The rules of a render of [ColliderTop]. *)
Definition fixedAtTop (h : Host) (c : StickNRoll) : gmap string string :=
  {[ "top" := px (spaceTop c);
     "left" := px (containerLeft c - scrollX h);
     "position" := "fixed";
     "width" := px (clientWidth h) ]}.

(** The page of [smallElement] with the element grown to the height of its
    container. *)
Definition grownElement (y : Z) : Host :=
  {| scrollX := 0; scrollY := y; innerHeight := 800;
     clientHeight := 3000; clientWidth := 0; offsetHeight := 3000;
     containerOffsets := {| offsetLeft := 0; offsetTop := 100 |};
     containerAncestors := [] |}.

(** [enable()] and a scroll down to 300: the element of [smallElement] is
    fixed at the top of the band. *)
Definition fixedPage : Page :=
  run (newPage None "static" ∅)
      (enabled smallElement ++ scrolledTo smallElement 300).

(** * Properties *)

(** ** Records and rules *)

Lemma this_on_this f p : this (on_this f p) = f (this p).
Proof. reflexivity. Qed.

Lemma on_this_page f p :
  container_position (on_this f p) = container_position p
  ∧ containerInner_style (on_this f p) = containerInner_style p
  ∧ animationFrames (on_this f p) = animationFrames p
  ∧ listening (on_this f p) = listening p.
Proof. done. Qed.

Lemma writeRules_lookup (defaults rules style : gmap string string) key :
  writeRules defaults rules style !! key =
  match defaults !! key with
  | Some dflt => Some (default dflt (rules !! key))
  | None => style !! key
  end.
Proof.
  unfold writeRules.
  apply (map_fold_weak_ind
           (fun r (m : gmap string string) =>
              r !! key = match m !! key with
                         | Some dflt => Some (default dflt (rules !! key))
                         | None => style !! key
                         end)).
  - by rewrite lookup_empty.
  - intros i x m r Hi IH.
    destruct (decide (i = key)) as [->|Hne].
    + by rewrite !lookup_insert_eq.
    + by rewrite !lookup_insert_ne.
Qed.

(** What [_render] does to [this]: only [translateY] and [rules] change. *)
Lemma _render_this state h p :
  ∃ ty r, this (_render state h p) = set_rules r (set_translateY ty (this p)).
Proof.
  destruct p as [c cp st n b]. unfold _render. cbn [this].
  repeat case_decide; cbn; try (eexists _, _; reflexivity).
  all: exists (translateY c), (rules c); by destruct c.
Qed.

Lemma _render_page state h p :
  container_position (_render state h p) =
    (if decide (state = State.ContainerBottom) then "relative" else "initial")
  ∧ containerInner_style (_render state h p) =
      writeRules (listOfRules (this p)) (rules (this (_render state h p)))
                 (containerInner_style p)
  ∧ animationFrames (_render state h p) = animationFrames p
  ∧ listening (_render state h p) = listening p.
Proof.
  destruct (_render_this state h p) as (ty & r & Hthis).
  unfold _render in *. cbn in *. rewrite Hthis. done.
Qed.

(** What [_getState] does to [this]: nothing, or the assignment of
    [prevStrategy]. *)
Lemma _getState_this direction h c :
  (_getState direction h c).2 = c
  ∨ (_getState direction h c).2 = set_prevStrategy (strategy c) c.
Proof.
  unfold _getState.
  repeat case_decide; repeat (case_match; try (by left)); first [by left|by right].
Qed.

Lemma _calcScroll_this h p :
  let c' := this (_calcScroll h p) in
  sameSettings (this p) c' ∧ sameBox (this p) c'
  ∧ colliderTop c' = scrollY h + spaceTop (this p)
  ∧ prevColliderTop c' = scrollY h + spaceTop (this p)
  ∧ prevViewportScrollX c' = scrollX h
  ∧ prevViewportScrollY c' = scrollY h
  ∧ prevState c' =
      (if decide (scrollState h (this p) = State.Rest) then prevState (this p)
       else scrollState h (this p)).
Proof.
  destruct p as [c cp st n b]. unfold _calcScroll, scrollState.
  cbn [this on_this set_this].
  set (c1 := set_colliderTop _ c).
  destruct (_getState_this (_getDirection h c1) h c1) as [H2|H2];
    destruct (_getState _ h c1) as [state c2]; cbn [fst snd] in *; subst c2.
  all: destruct (decide (state = State.Rest)) as [->|Hs].
  all: try (rewrite decide_False by (intros Hn; by apply Hn)).
  all: try (rewrite (decide_True (P := state ≠ State.Rest)) by done).
  all: unfold sameSettings, sameBox.
  all: try match goal with
           | |- context [_render ?s ?h ?q] =>
               destruct (_render_this s h q) as (ty & r & Hr)
           end.
  all: unfold on_this, set_this in *; cbn [this] in *; try rewrite Hr.
  all: cbn; done.
Qed.

Lemma _calcScroll_page h p :
  animationFrames (_calcScroll h p) = animationFrames p
  ∧ listening (_calcScroll h p) = listening p.
Proof.
  destruct p as [c cp st n b]. unfold _calcScroll.
  destruct (_getState _ h _) as [state c2].
  case_decide; [|done].
  unfold on_this, set_this. cbn [animationFrames listening this].
  match goal with
  | |- context [_render ?s ?h ?q] =>
      destruct (_render_page s h q) as (_ & _ & Hn & Hl)
  end.
  by rewrite Hn, Hl.
Qed.

Lemma _getStrategy_classify h c :
  _getStrategy h c =
  classify (containerHeight c) (offsetHeight h) (colliderHeight c).
Proof. reflexivity. Qed.

Lemma measured_this h c :
  let c' := measured h c in
  sameSettings c c'
  ∧ containerHeight c' = clientHeight h
  ∧ containerWidth c' = clientWidth h
  ∧ containerLeft c' =
      left (_getCoords (containerOffsets h) (containerAncestors h))
  ∧ containerTop c' =
      top (_getCoords (containerOffsets h) (containerAncestors h))
  ∧ colliderHeight c' = innerHeight h - spaceTop c - spaceBottom c
  ∧ maxTranslateY c' = clientHeight h - offsetHeight h
  ∧ strategy c' =
      classify (clientHeight h) (offsetHeight h)
               (innerHeight h - spaceTop c - spaceBottom c)
  ∧ prevState c' = prevState c
  ∧ prevStrategy c' = prevStrategy c.
Proof. unfold sameSettings. cbn. split_and!; reflexivity. Qed.

Lemma remembered_this h c :
  let c' := remembered h c in
  sameSettings c c' ∧ sameBox c c'
  ∧ colliderTop c' = colliderTop c
  ∧ prevState c' = prevState c
  ∧ prevStrategy c' = strategy c.
Proof. unfold sameSettings, sameBox. cbn. split_and!; reflexivity. Qed.

Lemma _calcDims_this h p :
  let c := this p in
  let c' := this (_calcDims h p) in
  sameSettings c c'
  ∧ containerHeight c' = clientHeight h
  ∧ containerWidth c' = clientWidth h
  ∧ containerLeft c' =
      left (_getCoords (containerOffsets h) (containerAncestors h))
  ∧ containerTop c' =
      top (_getCoords (containerOffsets h) (containerAncestors h))
  ∧ colliderHeight c' = innerHeight h - spaceTop c - spaceBottom c
  ∧ maxTranslateY c' = clientHeight h - offsetHeight h
  ∧ strategy c' =
      classify (clientHeight h) (offsetHeight h)
               (innerHeight h - spaceTop c - spaceBottom c)
  ∧ prevStrategy c' = strategy c'
  ∧ (strategy c' ≠ Strategy.None →
     colliderTop c' = scrollY h + spaceTop c)
  ∧ (prevState c' = prevState c ∨ prevState c' ≠ State.Rest).
Proof.
  unfold _calcDims. cbn zeta.
  pose proof (measured_this h (this p)) as Hm. cbn zeta in Hm.
  rewrite <- (this_on_this (measured h) p) in Hm.
  generalize dependent (on_this (measured h) p). intros p1 Hm.
  match goal with
  | |- context [on_this (remembered h) ?q] =>
      assert (sameSettings (this p1) (this q) ∧ sameBox (this p1) (this q)
              ∧ (strategy (this p1) ≠ Strategy.None →
                 colliderTop (this q) = scrollY h + spaceTop (this p1))
              ∧ (prevState (this q) = prevState (this p1)
                 ∨ prevState (this q) ≠ State.Rest)) as H2;
      [|generalize dependent q; intros p2 H2]
  end.
  { repeat case_decide.
    - destruct (_render_this State.None h p1) as (ty & r & ->).
      unfold sameSettings, sameBox.
      split_and!; try reflexivity; [by intros []|by left].
    - unfold sameSettings, sameBox.
      split_and!; try reflexivity; [by intros []|by left].
    - destruct (_calcScroll_this h p1) as (? & ? & ? & ? & ? & ? & Hp).
      split_and!; try assumption.
      + by intros _.
      + rewrite Hp. case_decide; [by left|by right]. }
  pose proof (remembered_this h (this p2)) as Hr. cbn zeta in Hr.
  rewrite this_on_this.
  generalize dependent (remembered h (this p2)). intros c'.
  generalize dependent (this p2). intros c2.
  generalize dependent (this p1). intros c1. generalize (this p).
  unfold sameSettings, sameBox. intros c0. intros.
  destruct_and!. split_and!; try congruence.
  intros Hne.
  match goal with
  | Hc : _ → colliderTop _ = _ |- _ => specialize (Hc ltac:(congruence))
  end.
  congruence.
Qed.

Lemma _calcDims_page h p :
  animationFrames (_calcDims h p) = animationFrames p
  ∧ listening (_calcDims h p) = listening p.
Proof.
  unfold _calcDims. cbn zeta.
  destruct (on_this_page (measured h) p) as (_ & _ & Hn1 & Hl1).
  generalize dependent (on_this (measured h) p). intros p1 Hn1 Hl1.
  match goal with
  | |- context [on_this (remembered h) ?q] =>
      destruct (on_this_page (remembered h) q) as (_ & _ & -> & ->)
  end.
  repeat case_decide.
  - destruct (_render_page State.None h p1) as (_ & _ & Hn & Hl).
    by rewrite Hn, Hl.
  - done.
  - destruct (_calcScroll_page h p1) as (Hn & Hl).
    by rewrite Hn, Hl.
Qed.

(** ** The strategy classifier *)

(** C4: [_getStrategy] is a total function of the container height, the
    element height and the collider height only: it is [classify] of these
    three numbers, it returns one of None, Top and Both; None exactly when
    containerHeight ≤ elementHeight (so also when the two are equal),
    otherwise Both exactly when colliderHeight < elementHeight, otherwise
    Top. *)
Theorem C4_getStrategy_classify h c :
  _getStrategy h c
  = classify (containerHeight c) (offsetHeight h) (colliderHeight c)
  ∧ _getStrategy h c ∈ [Strategy.None; Strategy.Top; Strategy.Both]
  ∧ (_getStrategy h c = Strategy.None ↔ containerHeight c ≤ offsetHeight h)
  ∧ (_getStrategy h c = Strategy.Both ↔
     offsetHeight h < containerHeight c ∧ colliderHeight c < offsetHeight h)
  ∧ (_getStrategy h c = Strategy.Top ↔
     offsetHeight h < containerHeight c ∧ offsetHeight h ≤ colliderHeight c)
  ∧ (∀ height collider, classify height height collider = Strategy.None).
Proof.
  split; [reflexivity|]. unfold _getStrategy, classify.
  split_and!.
  - repeat case_bool_decide; set_solver.
  - repeat case_bool_decide; split; (done || lia).
  - repeat case_bool_decide; split; try done; lia.
  - repeat case_bool_decide; split; try done; lia.
  - intros height collider. by rewrite bool_decide_true by lia.
Qed.

(** ** The style resolver *)


(** In a resize cycle the width that [_render] reads is the width that the
    cycle has just stored in [containerWidth]. *)
Lemma _calcDims_containerWidth h p :
  containerWidth (this (_calcDims h p)) = clientWidth h.
Proof. by destruct (_calcDims_this h p) as (_ & _ & ? & _). Qed.

(** ** The collider *)



(** ** The spaces *)

(** C10: [updateSpaces] stores each space that the argument carries and 0
    for each space that it omits, whatever the space was before. *)
Theorem C10_updateSpaces_omitted_is_zero spaces p :
  spaceTop (this (updateSpaces spaces p)) = default 0 (Spaces.spaceTop spaces)
  ∧ spaceBottom (this (updateSpaces spaces p))
    = default 0 (Spaces.spaceBottom spaces)
  ∧ (∀ t, spaceBottom (this (updateSpaces (Spaces.mk None (Some t)) p)) = 0
          ∧ spaceTop (this (updateSpaces (Spaces.mk None (Some t)) p)) = t)
  ∧ (∀ b, spaceTop (this (updateSpaces (Spaces.mk (Some b) None) p)) = 0
          ∧ spaceBottom (this (updateSpaces (Spaces.mk (Some b) None) p)) = b)
  ∧ (∀ t b,
       spaceTop (this (updateSpaces (Spaces.mk (Some b) (Some t)) p)) = t
       ∧ spaceBottom (this (updateSpaces (Spaces.mk (Some b) (Some t)) p)) = b).
Proof.
  assert (∀ s, spaceTop (this (updateSpaces s p)) = default 0 (Spaces.spaceTop s)
             ∧ spaceBottom (this (updateSpaces s p))
               = default 0 (Spaces.spaceBottom s)) as H.
  { intros s. unfold updateSpaces, _resizeListener, _request, raise.
    rewrite !this_on_this. cbn. split; reflexivity. }
  split_and!.
  - apply H.
  - apply H.
  - intros t. destruct (H (Spaces.mk None (Some t))) as [Ht Hb]. by split.
  - intros b. destruct (H (Spaces.mk (Some b) None)) as [Ht Hb]. by split.
  - intros t b. apply (H (Spaces.mk (Some b) (Some t))).
Qed.

(** ** What the scheduling functions and the public methods write *)

Lemma set_flag_this i v c :
  let c' := set_flag i v c in
  events c' = <[Item.index i := v]> (events c)
  ∧ isRunningRequest c' = isRunningRequest c
  ∧ listOfRules c' = listOfRules c
  ∧ spaceTop c' = spaceTop c
  ∧ spaceBottom c' = spaceBottom c
  ∧ prevState c' = prevState c.
Proof. done. Qed.

Lemma raise_this i c :
  let c' := raise i c in
  (events c' = events c ∨ events c' = <[Item.index i := true]> (events c))
  ∧ isRunningRequest c' = isRunningRequest c
  ∧ listOfRules c' = listOfRules c
  ∧ spaceTop c' = spaceTop c
  ∧ spaceBottom c' = spaceBottom c
  ∧ prevState c' = prevState c.
Proof. unfold raise. case_bool_decide; cbn; split_and!; auto. Qed.

Lemma _request_this p :
  let c' := this (_request p) in
  events c' = events (this p)
  ∧ listOfRules c' = listOfRules (this p)
  ∧ spaceTop c' = spaceTop (this p)
  ∧ spaceBottom c' = spaceBottom (this p)
  ∧ prevState c' = prevState (this p)
  ∧ isRunningRequest c' = true.
Proof. unfold _request. by destruct (isRunningRequest (this p)) eqn:E. Qed.

Lemma _request_page p :
  container_position (_request p) = container_position p
  ∧ containerInner_style (_request p) = containerInner_style p
  ∧ listening (_request p) = listening p
  ∧ animationFrames (_request p) =
      if isRunningRequest (this p) then animationFrames p
      else S (animationFrames p).
Proof. unfold _request. by destruct (isRunningRequest (this p)). Qed.

Lemma frameCallback_this h p :
  let c' := this (frameCallback h p) in
  listOfRules c' = listOfRules (this p)
  ∧ spaceTop c' = spaceTop (this p)
  ∧ spaceBottom c' = spaceBottom (this p)
  ∧ isRunningRequest c' = false
  ∧ (prevState c' = prevState (this p) ∨ prevState c' ≠ State.Rest).
Proof.
  unfold frameCallback. cbn zeta. rewrite this_on_this.
  match goal with
  | |- context [set_isRunningRequest false (this ?q)] =>
      assert (listOfRules (this q) = listOfRules (this p)
              ∧ spaceTop (this q) = spaceTop (this p)
              ∧ spaceBottom (this q) = spaceBottom (this p)
              ∧ (prevState (this q) = prevState (this p)
                 ∨ prevState (this q) ≠ State.Rest)) as H;
      [|generalize dependent (this q); intros c' (? & ? & ? & ?);
        by split_and!]
  end.
  destruct (flag Item.Resize (this p)); [|destruct (flag Item.Scroll (this p))].
  - destruct (_calcDims_this h (on_this (set_flag Item.Resize false) p))
      as ((_ & _ & ? & ? & ?) & _ & _ & _ & _ & _ & _ & _ & _ & _ & ?).
    by split_and!.
  - destruct (_calcScroll_this h (on_this (set_flag Item.Scroll false) p))
      as ((_ & _ & ? & ? & ?) & _ & _ & _ & _ & _ & Hp).
    split_and!; try done. rewrite Hp. case_decide; [by left|by right].
  - split_and!; try done. by left.
Qed.

Lemma frameCallback_page h p :
  animationFrames (frameCallback h p) = animationFrames p
  ∧ listening (frameCallback h p) = listening p.
Proof.
  unfold frameCallback. cbn zeta.
  match goal with
  | |- context [on_this (set_isRunningRequest false) ?q] =>
      destruct (on_this_page (set_isRunningRequest false) q)
        as (_ & _ & -> & ->)
  end.
  destruct (flag Item.Resize (this p)); [|destruct (flag Item.Scroll (this p))].
  - by destruct (_calcDims_page h (on_this (set_flag Item.Resize false) p))
      as (-> & ->).
  - by destruct (_calcScroll_page h (on_this (set_flag Item.Scroll false) p))
      as (-> & ->).
  - done.
Qed.

Lemma disable_page h p :
  let p' := disable h p in
  listOfRules (this p') = listOfRules (this p)
  ∧ spaceTop (this p') = spaceTop (this p)
  ∧ spaceBottom (this p') = spaceBottom (this p)
  ∧ prevState (this p') = State.None
  ∧ rules (this p') = ∅
  ∧ container_position p' = "initial"
  ∧ containerInner_style p'
    = writeRules (listOfRules (this p)) ∅ (containerInner_style p)
  ∧ animationFrames p' = animationFrames p
  ∧ listening p' = false.
Proof. done. Qed.

Lemma updateSpaces_page spaces p :
  let p' := updateSpaces spaces p in
  listOfRules (this p') = listOfRules (this p)
  ∧ prevState (this p') = State.None
  ∧ isRunningRequest (this p') = true
  ∧ container_position p' = container_position p
  ∧ containerInner_style p' = containerInner_style p
  ∧ animationFrames p' = S (animationFrames p)
  ∧ listening p' = listening p.
Proof. done. Qed.

(** ** Runs *)

Lemma run_cons p a l : run p (a :: l) = run (step p a) l.
Proof. reflexivity. Qed.

(** A property that every action preserves holds after every run. *)
Lemma run_invariant (P : Page → Prop) :
  (∀ p a, P p → P (step p a)) → ∀ l p, P p → P (run p l).
Proof.
  intros Hstep l. induction l as [|a l IH]; intros p Hp; [done|].
  rewrite run_cons. by apply IH, Hstep.
Qed.

Lemma listener_this i p :
  let c' := this (_request (on_this (raise i) p)) in
  listOfRules c' = listOfRules (this p)
  ∧ prevState c' = prevState (this p).
Proof.
  cbn zeta.
  destruct (_request_this (on_this (raise i) p)) as (_ & -> & _ & _ & -> & _).
  rewrite this_on_this. destruct (raise_this i (this p)) as (_ & _ & -> & _ & _ & ->).
  done.
Qed.

Lemma step_this p a :
  listOfRules (this (step p a)) = listOfRules (this p)
  ∧ (prevState (this p) ≠ State.Rest → prevState (this (step p a)) ≠ State.Rest).
Proof.
  destruct a as [h a]. unfold step. cbn [fst snd].
  destruct a as [| | | | |spaces].
  - destruct (listening p); [|done]. unfold _resizeListener.
    destruct (listener_this Item.Resize p) as [-> ->]. done.
  - destruct (listening p); [|done]. unfold _scrollListener.
    destruct (listener_this Item.Scroll p) as [-> ->]. done.
  - destruct (animationFrames p) as [|n]; [done|].
    destruct (frameCallback_this h (set_animationFrames n p))
      as (-> & _ & _ & _ & [->| ?]); done.
  - done.
  - destruct (disable_page h p) as (-> & _ & _ & -> & _). done.
  - destruct (updateSpaces_page spaces p) as (-> & -> & _). done.
Qed.

Lemma run_listOfRules p l :
  listOfRules (this (run p l)) = listOfRules (this p).
Proof.
  revert p. induction l as [|a l IH]; intros p; [done|].
  rewrite run_cons, IH. apply step_this.
Qed.

(** ** The persisted previous state *)

(** C8: whatever happens to a page after its construction, the stored
    previous state is never [Rest], so it is one of the five other states;
    a scroll cycle that computes [Rest] keeps the previous state, and one
    that computes another state stores that state. *)
Theorem C8_prevState_never_Rest options position style l h p :
  prevState (this (run (newPage options position style) l)) ≠ State.Rest
  ∧ prevState (this (run (newPage options position style) l))
    ∈ [State.None; State.ColliderTop; State.ColliderBottom;
       State.TranslateY; State.ContainerBottom]
  ∧ prevState (this (_calcScroll h p))
    = if decide (scrollState h (this p) = State.Rest)
      then prevState (this p)
      else scrollState h (this p).
Proof.
  assert (prevState (this (run (newPage options position style) l))
          ≠ State.Rest) as Hrest.
  { apply (run_invariant (fun p => prevState (this p) ≠ State.Rest));
      [|done].
    intros q a. apply step_this. }
  split_and!; [done| |apply _calcScroll_this].
  destruct (prevState _); set_solver.
Qed.

(** ** Disabling *)

Lemma defaultRules_lookup position :
  defaultRules position !! "width" = Some "initial"
  ∧ defaultRules position !! "left" = Some "initial"
  ∧ defaultRules position !! "top" = Some "initial"
  ∧ defaultRules position !! "position" = Some position
  ∧ defaultRules position !! "transform" = Some "initial".
Proof. split_and!; vm_compute; reflexivity. Qed.

(** C3: after [enable()] and any sequence of notifications, scroll events,
    animation frames and method calls, [disable()] leaves each of the five
    tracked properties of the element at its configured default (the
    position given in the options, or 'initial', for [position]; 'initial'
    for the four others) and the position of the container at 'initial'. *)
Theorem C3_disable_restores_baseline options position style l h :
  let p := disable h (run (enable (newPage options position style)) l) in
  containerInner_style p !! "width" = Some "initial"
  ∧ containerInner_style p !! "left" = Some "initial"
  ∧ containerInner_style p !! "top" = Some "initial"
  ∧ containerInner_style p !! "position"
    = Some (default "initial" (options ≫= OptionsType.position))
  ∧ containerInner_style p !! "transform" = Some "initial"
  ∧ container_position p = "initial".
Proof.
  cbn zeta.
  destruct (disable_page h (run (enable (newPage options position style)) l))
    as (_ & _ & _ & _ & _ & -> & -> & _).
  rewrite run_listOfRules.
  change (listOfRules (this (enable (newPage options position style))))
    with (defaultRules (default "initial" (options ≫= OptionsType.position))).
  rewrite !writeRules_lookup.
  destruct (defaultRules_lookup
              (default "initial" (options ≫= OptionsType.position)))
    as (-> & -> & -> & -> & ->).
  rewrite lookup_empty. done.
Qed.

(** ** Scheduling of the animation frame callback *)

Lemma listener_guarded i p :
  guarded p → guarded (_request (on_this (raise i) p)).
Proof.
  unfold guarded. intros Hp.
  destruct (_request_this (on_this (raise i) p)) as (_ & _ & _ & _ & _ & ->).
  destruct (_request_page (on_this (raise i) p)) as (_ & _ & _ & ->).
  rewrite this_on_this.
  destruct (raise_this i (this p)) as (_ & -> & _).
  destruct (on_this_page (raise i) p) as (_ & _ & -> & _).
  rewrite Hp. by destruct (isRunningRequest (this p)).
Qed.

Lemma signal_guarded p h s : guarded p → guarded (step p (h, signalAction s)).
Proof.
  intros Hp. unfold step. cbn [fst snd]. destruct s; cbn [signalAction].
  - destruct (listening p); [|done]. by apply listener_guarded.
  - destruct (listening p); [|done]. by apply listener_guarded.
  - destruct (animationFrames p) as [|n] eqn:Hn; [done|].
    unfold guarded in *.
    destruct (frameCallback_page h (set_animationFrames n p)) as (-> & _).
    destruct (frameCallback_this h (set_animationFrames n p))
      as (_ & _ & _ & -> & _).
    cbn. destruct (isRunningRequest (this p)); congruence.
Qed.

Lemma signals_guarded l p : guarded p → guarded (run p (signals l)).
Proof.
  revert p. induction l as [|[h s] l IH]; intros p Hp; [done|].
  unfold signals. rewrite fmap_cons, run_cons. cbn [prod_map fst snd id].
  by apply IH, signal_guarded.
Qed.

(** C7: along every interleaving of resize notifications, scroll events and
    animation frames after [enable()], at most one callback is pending, and
    one is pending exactly when the guard [isRunningRequest] is set; a
    listener called while the guard is set raises its flag and schedules
    nothing; a callback that finds the resize flag set runs the resize cycle
    and not the scroll branch, so with both flags set the resize flag is
    cleared and the scroll flag stays set. *)
Theorem C7_one_pending_callback options position style l h p :
  let q := run (enable (newPage options position style)) (signals l) in
  ((animationFrames q ≤ 1)%nat
   ∧ (animationFrames q = 1%nat ↔ isRunningRequest (this q) = true))
  ∧ (isRunningRequest (this p) = true →
     _resizeListener p = on_this (raise Item.Resize) p
     ∧ _scrollListener p = on_this (raise Item.Scroll) p
     ∧ animationFrames (_resizeListener p) = animationFrames p
     ∧ animationFrames (_scrollListener p) = animationFrames p)
  ∧ (flag Item.Resize (this p) = true →
     frameCallback h p
     = on_this (set_isRunningRequest false)
         (_calcDims h (on_this (set_flag Item.Resize false) p))
     ∧ flag Item.Resize (this (frameCallback h p)) = false
     ∧ (flag Item.Scroll (this p) = true →
        flag Item.Scroll (this (frameCallback h p)) = true)).
Proof.
  cbn zeta. split_and!.
  - assert (guarded (run (enable (newPage options position style)) (signals l)))
      as Hg by (by apply signals_guarded).
    unfold guarded in Hg. rewrite Hg.
    destruct (isRunningRequest _); lia.
  - assert (guarded (run (enable (newPage options position style)) (signals l)))
      as Hg by (by apply signals_guarded).
    unfold guarded in Hg. rewrite Hg.
    destruct (isRunningRequest _); naive_solver lia.
  - intros Hp.
    assert (∀ i, _request (on_this (raise i) p) = on_this (raise i) p) as H.
    { intros i. unfold _request. rewrite this_on_this.
      destruct (raise_this i (this p)) as (_ & -> & _). by rewrite Hp. }
    unfold _resizeListener, _scrollListener. by rewrite !H.
  - intros Hr.
    assert (frameCallback h p
            = on_this (set_isRunningRequest false)
                (_calcDims h (on_this (set_flag Item.Resize false) p))) as ->.
    { unfold frameCallback. by rewrite Hr. }
    split; [done|]. rewrite this_on_this.
    destruct (_calcDims_this h (on_this (set_flag Item.Resize false) p))
      as ((He & _) & _).
    rewrite this_on_this in He.
    destruct (set_flag_this Item.Resize false (this p)) as (Hf & _).
    rewrite Hf in He. clear Hf.
    generalize dependent (this (_calcDims h (on_this (set_flag Item.Resize false) p))).
    intros c' He. unfold flag in *. cbn [events set_isRunningRequest].
    rewrite He. cbn [Item.index]. apply bool_decide_eq_true in Hr.
    split.
    + apply bool_decide_eq_false.
      destruct (events (this p)) as [|e es]; [done|]. by cbn.
    + intros Hs. apply bool_decide_eq_true in Hs.
      apply bool_decide_eq_true.
      destruct (events (this p)) as [|e es]; [done|]. by cbn in *.
Qed.

Lemma C7_one_pending_callback_witness :
  let p := bothSignals in
  isRunningRequest (this p) = true
  ∧ flag Item.Resize (this p) = true
  ∧ flag Item.Scroll (this p) = true
  ∧ animationFrames p = 1%nat
  ∧ animationFrames (_scrollListener p) = animationFrames p
  ∧ flag Item.Resize (this (frameCallback viewport800 p)) = false
  ∧ flag Item.Scroll (this (frameCallback viewport800 p)) = true.
Proof.
  cbn zeta.
  assert (isRunningRequest (this bothSignals) = true) as Hrun
    by (vm_compute; reflexivity).
  assert (flag Item.Resize (this bothSignals) = true) as Hresize
    by (vm_compute; reflexivity).
  assert (flag Item.Scroll (this bothSignals) = true) as Hscroll
    by (vm_compute; reflexivity).
  destruct (C7_one_pending_callback None "static" ∅
              [(viewport800, ResizeSignal); (viewport800, ScrollSignal)]
              viewport800 bothSignals)
    as ((_ & Hone) & Hlisteners & Hframe).
  destruct (Hlisteners Hrun) as (_ & _ & _ & Hs).
  destruct (Hframe Hresize) as (_ & Hr & Hkeep).
  split_and!;
    [exact Hrun|exact Hresize|exact Hscroll|by apply Hone|exact Hs|exact Hr
    |by apply Hkeep].
Defined.

(** Outside these interleavings the guard can be reset while a callback is
    pending: [updateSpaces] (through [_init]) clears it, and its own request
    then schedules a second callback. *)
Lemma updateSpaces_second_callback :
  let p := run (enable (newPage None "static" ∅))
             [(viewport800, ScrollEvent)] in
  animationFrames p = 1%nat
  ∧ animationFrames (updateSpaces (Spaces.mk (Some 8) (Some 64)) p) = 2%nat.
Proof. vm_compute. done. Qed.

(** ** The hand-off into [TranslateY] *)

Lemma _render_TranslateY h p :
  this (_render State.TranslateY h p)
  = set_rules {[ "position" := "relative";
                 "transform" := translate3d (handOff h (this p)) ]}
      (set_translateY (handOff h (this p)) (this p)).
Proof.
  destruct p as [c cp st n b]. unfold _render, handOff, translate3d.
  cbn [this]. cbn. repeat case_decide; try discriminate; try reflexivity.
  all: try done. all: by destruct c.
Qed.

(** A scroll cycle, by the state it computes. *)
Lemma _calcScroll_unfold h p :
  let c1 := set_colliderTop (scrollY h + spaceTop (this p)) (this p) in
  let r := _getState (_getDirection h c1) h c1 in
  _calcScroll h p
  = (if decide (r.1 ≠ State.Rest)
     then set_this r.2 p |> _render r.1 h |> on_this (set_prevState r.1)
     else set_this r.2 p)
    |> on_this (fun c => set_prevColliderTop (colliderTop c) c)
    |> on_this (set_prevViewportScrollX (scrollX h))
    |> on_this (set_prevViewportScrollY (scrollY h)).
Proof.
  cbn zeta. unfold _calcScroll. rewrite this_on_this.
  destruct (_getState _ h _) as [state c2]. reflexivity.
Qed.

(** Where a scroll cycle computes [TranslateY], what it stores and writes. *)
Lemma _calcScroll_hand_off h p :
  scrollState h (this p) = State.TranslateY →
  let p' := _calcScroll h p in
  translateY (this p') = handOff h (this p)
  ∧ colliderTop (this p') = scrollY h + spaceTop (this p)
  ∧ containerTop (this p') = containerTop (this p)
  ∧ rules (this p')
    = {[ "position" := "relative";
         "transform" := translate3d (handOff h (this p)) ]}
  ∧ containerInner_style p'
    = writeRules (listOfRules (this p))
        {[ "position" := "relative";
           "transform" := translate3d (handOff h (this p)) ]}
        (containerInner_style p).
Proof.
  intros Hs. cbn zeta. rewrite _calcScroll_unfold. cbn zeta.
  unfold scrollState in Hs. cbn zeta in Hs.
  set (c1 := set_colliderTop _ (this p)) in *.
  assert (handOff h c1 = handOff h (this p)) as Hh by reflexivity.
  assert (listOfRules c1 = listOfRules (this p)) as Hl by reflexivity.
  assert (containerTop c1 = containerTop (this p)) as Ht by reflexivity.
  assert (colliderTop c1 = scrollY h + spaceTop (this p)) as Hc by reflexivity.
  clearbody c1.
  destruct (_getState_this (_getDirection h c1) h c1) as [H2|H2];
    destruct (_getState _ h c1) as [state c2]; cbn [fst snd] in *; subst.
  all: rewrite decide_True by done.
  all: match goal with
       | |- context [_render ?s ?h ?q] =>
           destruct (_render_page s h q) as (_ & Hst & _);
           pose proof (_render_TranslateY h q) as Hth
       end.
  all: repeat (rewrite ?this_on_this;
               match goal with
               | |- context [containerInner_style (on_this ?f ?q)] =>
                   destruct (on_this_page f q) as (_ & -> & _)
               end).
  all: rewrite ?this_on_this, Hst, Hth; cbn [this set_this].
  all: change (handOff h (set_prevStrategy (strategy c1) c1))
         with (handOff h c1) in *.
  all: rewrite Hh; cbn; rewrite ?Hl, ?Ht, ?Hc; done.
Qed.

(** C1 as stated fails: the page is in [ColliderTop] with the viewport at
    350; the next scroll, down to 500, makes the transition into
    [TranslateY] with colliderTop = 500 and containerTop = 100, and the
    resolved translateY is 250 (the previous colliderTop, 350, minus 100),
    not 400. *)
Lemma C1_counterexample :
  let p := sidebarAtColliderTop in
  let p' := run p (scrolledTo tallSidebar 500) in
  prevState (this p) = State.ColliderTop
  ∧ prevState (this p') = State.TranslateY
  ∧ colliderTop (this p') = 500
  ∧ containerTop (this p') = 100
  ∧ translateY (this p') = 250
  ∧ translateY (this p') ≠ colliderTop (this p') - containerTop (this p')
  ∧ containerInner_style p' !! "transform"
    = Some "translate3d(0px, 250px, 0px)".
Proof. vm_compute. split_and!; done. Qed.

(** C1, amended: when a scroll cycle takes the page from [ColliderTop] into
    [TranslateY], the translateY it resolves is the collider top stored by
    the previous scroll cycle minus the container top; the rules are
    position = relative and transform = translate3d(0px, translateYpx, 0px),
    and that transform is written to the element. *)
Theorem C1_translateY_from_ColliderTop h p position :
  listOfRules (this p) = defaultRules position →
  prevState (this p) = State.ColliderTop →
  prevState (this (_calcScroll h p)) = State.TranslateY →
  let p' := _calcScroll h p in
  translateY (this p') = prevColliderTop (this p) - containerTop (this p')
  ∧ rules (this p')
    = {[ "position" := "relative";
         "transform" := translate3d (translateY (this p')) ]}
  ∧ containerInner_style p' !! "transform"
    = Some (translate3d (translateY (this p')))
  ∧ containerInner_style p' !! "position" = Some "relative".
Proof.
  intros Hrules Hprev Hnext. cbn zeta.
  assert (scrollState h (this p) = State.TranslateY) as Hs.
  { destruct (_calcScroll_this h p) as (_ & _ & _ & _ & _ & _ & Hp).
    cbn zeta in Hp. rewrite Hnext in Hp.
    case_decide; congruence. }
  destruct (_calcScroll_hand_off h p Hs) as (Hty & _ & Htop & Hr & Hst).
  assert (handOff h (this p) = prevColliderTop (this p) - containerTop (this p))
    as Hh by (unfold handOff; by rewrite decide_True).
  rewrite Hty, Htop, Hr, Hst, Hrules, !writeRules_lookup.
  destruct (defaultRules_lookup position) as (_ & _ & _ & -> & ->).
  split_and!; done.
Qed.

Lemma C1_translateY_from_ColliderTop_witness :
  let p := sidebarAtColliderTop in
  let p' := _calcScroll (tallSidebar 500) p in
  prevState (this p) = State.ColliderTop
  ∧ prevState (this p') = State.TranslateY
  ∧ translateY (this p') = prevColliderTop (this p) - containerTop (this p')
  ∧ containerInner_style p' !! "transform"
    = Some (translate3d (translateY (this p'))).
Proof.
  cbn zeta.
  assert (prevState (this sidebarAtColliderTop) = State.ColliderTop) as H1
    by (vm_compute; reflexivity).
  assert (prevState (this (_calcScroll (tallSidebar 500) sidebarAtColliderTop))
          = State.TranslateY) as H2 by (vm_compute; reflexivity).
  assert (listOfRules (this sidebarAtColliderTop) = defaultRules "initial")
    as H0 by (vm_compute; reflexivity).
  destruct (C1_translateY_from_ColliderTop
              (tallSidebar 500) sidebarAtColliderTop "initial" H0 H1 H2)
    as (Ht & _ & Hs & _).
  split_and!; assumption.
Defined.

(** ** The state machine *)

Lemma firstMatch_Rest table :
  Forall (fun row => row.2 ≠ State.Rest) table →
  firstMatch table = State.Rest ↔ Forall (fun row => row.1 = false) table.
Proof.
  induction 1 as [|[condition target] table Htarget _ IH]; cbn.
  - split; [constructor|done].
  - rewrite Forall_cons. cbn in *. destruct condition.
    + split; [done|]. by intros [? _].
    + rewrite IH. split; [by split|by intros [_ ?]].
Qed.

Lemma transitionTable_targets refresh direction h c :
  Forall (fun row => row.2 ≠ State.Rest)
         (transitionTable refresh direction h c).
Proof.
  unfold transitionTable. destruct (prevState c); repeat constructor; done.
Qed.

Lemma _getState_table direction h c :
  (_getState direction h c).1
  = firstMatch (transitionTable (refreshNeeded h c) direction h c).
Proof.
  unfold _getState, transitionTable.
  destruct (prevState c); cbn [decide decide_rel State_eq_dec].
  all: cbn; repeat (destruct (bool_decide _); cbn; try reflexivity).
  all: destruct (refreshNeeded h c); reflexivity.
Qed.



(** ** Strategy [None] *)

Lemma _render_None h p :
  this (_render State.None h p) = set_rules ∅ (set_translateY 0 (this p)).
Proof. reflexivity. Qed.

(** The resize cycle does what the strategy asks for: when the strategy it
    computes is [None], the state machine is not run, the previous state
    stays, and the element is rendered in state [None] exactly when the
    strategy of the last resize cycle was not [None]. *)
Lemma _calcDims_strategy_None h p :
  strategy (this (_calcDims h p)) = Strategy.None →
  prevState (this (_calcDims h p)) = prevState (this p)
  ∧ containerInner_style (_calcDims h p)
    = if decide (prevStrategy (this p) ≠ Strategy.None)
      then writeRules (listOfRules (this p)) ∅ (containerInner_style p)
      else containerInner_style p.
Proof.
  intros Hs.
  destruct (_calcDims_this h p) as (_ & _ & _ & _ & _ & _ & _ & Hc & _).
  cbn zeta in Hc. rewrite Hc in Hs. clear Hc.
  destruct (measured_this h (this p))
    as ((_ & _ & Hl & _) & _ & _ & _ & _ & _ & _ & Hm & Hprev & Hps).
  cbn zeta in *. rewrite <- Hm in Hs. clear Hm.
  rewrite <- (this_on_this (measured h) p) in Hs, Hl, Hprev, Hps.
  destruct (on_this_page (measured h) p) as (_ & Hst & _).
  unfold _calcDims. cbn zeta.
  generalize dependent (on_this (measured h) p). intros p1 Hs Hl Hprev Hps Hst.
  rewrite decide_True by done. rewrite Hs, Hps.
  match goal with
  | |- context [on_this (remembered h) ?q] =>
      rewrite this_on_this;
      destruct (on_this_page (remembered h) q) as (_ & -> & _);
      destruct (remembered_this h (this q)) as (_ & _ & _ & -> & _)
  end.
  case_decide.
  - rewrite _render_None.
    destruct (_render_page State.None h p1) as (_ & -> & _).
    rewrite _render_None. cbn [prevState rules set_rules set_translateY].
    by rewrite Hl, Hst, Hprev.
  - by rewrite Hst, Hprev.
Qed.

(** The scroll branch of the animation frame callback has no such test: with
    the scroll flag alone it runs the scroll cycle, whatever the strategy. *)
Lemma frameCallback_scroll_branch h p :
  flag Item.Resize (this p) = false →
  flag Item.Scroll (this p) = true →
  frameCallback h p
  = on_this (set_isRunningRequest false)
      (_calcScroll h (on_this (set_flag Item.Scroll false) p)).
Proof. intros Hr Hs. unfold frameCallback. by rewrite Hr, Hs. Qed.

(** C5 on the code: with a container 1000 high and an element 2000 high the
    strategy is [None] and the first resize cycle renders nothing; the first
    scroll event then runs the state machine all the same, which takes the
    page from [None] to [ContainerBottom] and makes the element sticky. *)
Theorem C5_scroll_cycle_ignores_strategy :
  let p := run (newPage None "static" ∅) (enabled tallElement) in
  let p' := run p (scrolledTo tallElement 50) in
  (strategy (this p) = Strategy.None
   ∧ prevState (this p) = State.None
   ∧ containerInner_style p = ∅)
  ∧ (strategy (this p') = Strategy.None
     ∧ scrollState (tallElement 50) (this p) = State.ContainerBottom
     ∧ prevState (this p') = State.ContainerBottom
     ∧ containerInner_style p' !! "position" = Some "sticky"
     ∧ container_position p' = "relative").
Proof. vm_compute. split_and!; reflexivity. Qed.

(** ** Release 1.0.3 *)

(** In release 1.0.3 the offset on leaving [ColliderTop] is the collider top
    of the running cycle minus the container top. *)
Lemma legacy_render_TranslateY_from_ColliderTop h p :
  prevState (this p) = State.ColliderTop →
  this (Legacy._render State.TranslateY h p)
  = set_rules
      {[ "position" := "relative";
         "transform" :=
           translate3d (colliderTop (this p) - containerTop (this p)) ]}
      (set_translateY (colliderTop (this p) - containerTop (this p)) (this p)).
Proof.
  intros Hprev. destruct p as [c cp st n b]. cbn [this] in *.
  unfold Legacy._render, translate3d. cbn [this].
  repeat (rewrite decide_False by discriminate). rewrite !decide_True by done.
  reflexivity.
Qed.

(** The same scrolls in release 1.0.3 (down to 450 and 600, up to 550 and
    350, down to 500): the transition at
    colliderTop = 500 and containerTop = 100 resolves translateY = 400. *)
Lemma legacy_sidebar_hand_off :
  let p := Legacy.run (Legacy.newPage None Legacy.unset ∅)
             (enabled tallSidebar ++ scrolledTo tallSidebar 450
              ++ scrolledTo tallSidebar 600 ++ scrolledTo tallSidebar 550
              ++ scrolledTo tallSidebar 350) in
  let p' := Legacy.run p (scrolledTo tallSidebar 500) in
  prevState (this p) = State.ColliderTop
  ∧ prevState (this p') = State.TranslateY
  ∧ colliderTop (this p') = 500
  ∧ containerTop (this p') = 100
  ∧ translateY (this p') = 400
  ∧ containerInner_style p' !! "transform"
    = Some "translate3d(0px, 400px, 0px)".
Proof. vm_compute. split_and!; reflexivity. Qed.

(** In release 1.0.3 the refresh condition is the one of §4.2. *)
Lemma legacy_getState_table direction h c :
  (Legacy._getState direction h c).1
  = firstMatch (transitionTable (boxChanged h c) direction h c).
Proof.
  unfold Legacy._getState, transitionTable.
  change (Legacy.refreshNeeded h c) with (boxChanged h c).
  destruct (prevState c); cbn [decide decide_rel State_eq_dec].
  all: cbn; repeat (destruct (bool_decide _); cbn; try reflexivity).
  all: destruct (boxChanged h c); reflexivity.
Qed.

(** In release 1.0.3 [disable()] writes no style. *)
Lemma legacy_disable_styles p :
  containerInner_style (Legacy.disable p) = containerInner_style p
  ∧ container_position (Legacy.disable p) = container_position p.
Proof. done. Qed.

(** In release 1.0.3 too [updateSpaces] stores 0 for an omitted space. *)
Lemma legacy_updateSpaces_spaces spaces p :
  spaceTop (this (Legacy.updateSpaces spaces p))
  = default 0 (Spaces.spaceTop spaces)
  ∧ spaceBottom (this (Legacy.updateSpaces spaces p))
    = default 0 (Spaces.spaceBottom spaces).
Proof.
  unfold Legacy.updateSpaces, _resizeListener.
  destruct (_request_this
              (on_this (raise Item.Resize)
                 (on_this (set_spaceTop (default 0 (Spaces.spaceTop spaces)))
                    (on_this
                       (set_spaceBottom
                          (default 0 (Spaces.spaceBottom spaces))) p))))
    as (_ & _ & -> & -> & _).
  rewrite this_on_this.
  match goal with
  | |- context [raise Item.Resize ?c] =>
      destruct (raise_this Item.Resize c) as (_ & _ & _ & -> & -> & _)
  end.
  done.
Qed.

(** * Further properties *)

(** ** The DOM walks *)

Lemma getCoordsLoop_offsetWalk :
  ∀ element coords,
    getCoordsLoop element coords
    = foldl (fun coords e =>
               {| top := top coords + offsetTop e;
                  left := left coords + offsetLeft e |})
            coords (offsetsOf <$> offsetWalk element).
Proof.
  fix IH 1. intros [tag l t op pe] coords. cbn. unfold nextElement. cbn.
  destruct (bool_decide ("BODY" = tag)).
  - destruct pe as [e|]; [|done]. cbn. apply IH.
  - destruct op as [e|]; [|done]. cbn. apply IH.
Qed.

Lemma _getCoords_sums element walk :
  left (_getCoords element walk)
  = offsetLeft element + foldr Z.add 0 (offsetLeft <$> walk)
  ∧ top (_getCoords element walk)
    = offsetTop element + foldr Z.add 0 (offsetTop <$> walk).
Proof.
  unfold _getCoords.
  generalize (offsetLeft element) (offsetTop element).
  induction walk as [|e walk IH]; intros x y; cbn.
  - split; lia.
  - destruct (IH (x + offsetLeft e) (y + offsetTop e)) as [-> ->]. split; lia.
Qed.

Lemma offsetWalk_next element :
  offsetWalk element
  = match nextElement element with
    | Some e => e :: offsetWalk e
    | None => []
    end.
Proof. by destruct element. Qed.

(** X1: the coordinates that [_getCoords] returns for an element are the
    sums of the left and of the top offsets of the element and of every
    element that the loop reaches: its offset parents up to BODY, and after
    BODY the parent of BODY.  They are the offsets of the element plus the
    coordinates of the next element of the walk, and the offsets alone when
    there is none; the list of offsets that a [Host] carries gives the same
    coordinates. *)
Theorem X1_getCoords_accumulates element :
  _getCoordsOf element
  = _getCoords (offsetsOf element) (offsetsOf <$> offsetWalk element)
  ∧ left (_getCoordsOf element)
    = elementOffsetLeft element
      + foldr Z.add 0 (elementOffsetLeft <$> offsetWalk element)
  ∧ top (_getCoordsOf element)
    = elementOffsetTop element
      + foldr Z.add 0 (elementOffsetTop <$> offsetWalk element)
  ∧ left (_getCoordsOf element)
    = elementOffsetLeft element
      + from_option (fun e => left (_getCoordsOf e)) 0 (nextElement element)
  ∧ top (_getCoordsOf element)
    = elementOffsetTop element
      + from_option (fun e => top (_getCoordsOf e)) 0 (nextElement element).
Proof.
  assert (∀ e, _getCoordsOf e
               = _getCoords (offsetsOf e) (offsetsOf <$> offsetWalk e)) as Heq.
  { intros e. unfold _getCoordsOf. by rewrite getCoordsLoop_offsetWalk. }
  assert (∀ e, left (_getCoordsOf e)
               = elementOffsetLeft e
                 + foldr Z.add 0 (elementOffsetLeft <$> offsetWalk e)
               ∧ top (_getCoordsOf e)
                 = elementOffsetTop e
                   + foldr Z.add 0 (elementOffsetTop <$> offsetWalk e))
    as Hsum.
  { intros e. rewrite Heq.
    destruct (_getCoords_sums (offsetsOf e) (offsetsOf <$> offsetWalk e))
      as [-> ->].
    rewrite <- !list_fmap_compose. done. }
  split_and!; [apply Heq|apply Hsum|apply Hsum| |].
  - destruct (Hsum element) as [-> _]. rewrite offsetWalk_next.
    destruct (nextElement element) as [e|]; cbn; [|done].
    by destruct (Hsum e) as [-> _].
  - destruct (Hsum element) as [_ ->]. rewrite offsetWalk_next.
    destruct (nextElement element) as [e|]; cbn; [|done].
    by destruct (Hsum e) as [_ ->].
Qed.

Lemma observe_prefix :
  ∀ element,
    _observeTreeNodesFromCurrentToBody element `prefix_of` parentChain element.
Proof.
  fix IH 1. intros [tag l t op pe]. cbn.
  apply prefix_cons. destruct (bool_decide (tag = "BODY")).
  - apply prefix_nil.
  - destruct pe as [e|]; [apply IH|done].
Qed.

Lemma observe_body_last :
  ∀ element l1 x l2,
    _observeTreeNodesFromCurrentToBody element = l1 ++ x :: l2 →
    tagName x = "BODY" → l2 = [].
Proof.
  fix IH 1. intros [tag l t op pe] l1 x l2. cbn.
  case_bool_decide as Hbody.
  - intros Heq Hx. destruct l1 as [|y l1]; cbn in Heq.
    + by injection Heq.
    + injection Heq as _ Heq. by destruct l1.
  - destruct pe as [e|].
    + intros Heq Hx. destruct l1 as [|y l1]; cbn in Heq.
      * injection Heq as <- _. done.
      * injection Heq as _ Heq. by apply (IH e l1 x l2).
    + intros Heq Hx. destruct l1 as [|y l1]; cbn in Heq.
      * injection Heq as <- _. done.
      * injection Heq as _ Heq. by destruct l1.
Qed.

Lemma observe_last :
  ∀ element x,
    last (_observeTreeNodesFromCurrentToBody element) = Some x →
    tagName x = "BODY" ∨ parentElement x = None.
Proof.
  fix IH 1. intros [tag l t op pe] x. cbn.
  case_bool_decide as Hbody.
  - cbn. intros [= <-]. by left.
  - destruct pe as [e|].
    + intros Hlast. apply (IH e x).
      assert (∃ l', _observeTreeNodesFromCurrentToBody e = e :: l')
        as [l' Hl'] by (destruct e; eexists; reflexivity).
      rewrite Hl' in Hlast |- *. exact Hlast.
    + cbn. intros [= <-]. by right.
Qed.

(** X2: [_observeTreeNodesFromCurrentToBody] observes the element first and
    then its parents in order; it observes nothing after an element whose tag
    is BODY, and it stops only at BODY or at an element without parent. *)
Theorem X2_observe_from_current_to_body element :
  _observeTreeNodesFromCurrentToBody element !! 0%nat = Some element
  ∧ _observeTreeNodesFromCurrentToBody element `prefix_of` parentChain element
  ∧ (∀ l1 x l2,
       _observeTreeNodesFromCurrentToBody element = l1 ++ x :: l2 →
       tagName x = "BODY" → l2 = [])
  ∧ (∀ x,
       last (_observeTreeNodesFromCurrentToBody element) = Some x →
       tagName x = "BODY" ∨ parentElement x = None).
Proof.
  split_and!.
  - by destruct element.
  - apply observe_prefix.
  - apply observe_body_last.
  - apply observe_last.
Qed.

(** ** What a render writes *)

Lemma _render_resolve state h p :
  _render state h p
  = {| this := resolve state h (this p);
       container_position :=
         (if decide (state = State.ContainerBottom) then "relative"
          else "initial");
       containerInner_style :=
         writeRules (listOfRules (resolve state h (this p)))
                    (rules (resolve state h (this p)))
                    (containerInner_style p);
       animationFrames := animationFrames p;
       listening := listening p |}.
Proof. by destruct p. Qed.

Lemma resolve_this state h c :
  ∃ ty r, resolve state h c = set_rules r (set_translateY ty c).
Proof. apply _render_this. Qed.

Lemma resolve_idempotent state h c :
  resolve state h (resolve state h c) = resolve state h c.
Proof.
  destruct c as [? ? ? ? ? ? ? ? ? ? ? ? ? ? ? ? ? ? ? ? ? ? ? prev ? ?].
  unfold resolve, _render. cbn [this].
  destruct state; cbn; try reflexivity.
  destruct prev; reflexivity.
Qed.

Lemma writeRules_idempotent (defaults rules style : gmap string string) :
  writeRules defaults rules (writeRules defaults rules style)
  = writeRules defaults rules style.
Proof.
  apply map_eq. intros key. rewrite !writeRules_lookup.
  by destruct (defaults !! key).
Qed.

(** X3: whatever state is rendered, [_render] writes every property that
    [listOfRules] lists, from the rules of the state or else from the default,
    and leaves every other property of the element as it is; with the rules
    of the constructor these are exactly width, left, top, position and
    transform, so none of the five keeps the value of an earlier render. *)
Theorem X3_render_writes_tracked_properties state h p key :
  containerInner_style (_render state h p) !! key
  = match listOfRules (this p) !! key with
    | Some dflt =>
        Some (default dflt (rules (this (_render state h p)) !! key))
    | None => containerInner_style p !! key
    end
  ∧ (∀ position,
       listOfRules (this p) = defaultRules position →
       (key ∈ ["width"; "left"; "top"; "position"; "transform"] →
        is_Some (containerInner_style (_render state h p) !! key))
       ∧ (key ∉ ["width"; "left"; "top"; "position"; "transform"] →
          containerInner_style (_render state h p) !! key
          = containerInner_style p !! key)).
Proof.
  destruct (_render_page state h p) as (_ & Hst & _).
  assert (containerInner_style (_render state h p) !! key
          = match listOfRules (this p) !! key with
            | Some dflt =>
                Some (default dflt (rules (this (_render state h p)) !! key))
            | None => containerInner_style p !! key
            end) as Hkey by (by rewrite Hst, writeRules_lookup).
  split; [exact Hkey|]. intros position Hrules. rewrite Hkey, Hrules.
  destruct (defaultRules_lookup position) as (Hw & Hl & Ht & Hp & Htr).
  split.
  - rewrite !elem_of_cons, elem_of_nil.
    intros [->|[->|[->|[->|[->|[]]]]]];
      rewrite ?Hw, ?Hl, ?Ht, ?Hp, ?Htr; by eexists.
  - rewrite !elem_of_cons, elem_of_nil. intros Hnot.
    unfold defaultRules.
    rewrite !lookup_insert_ne, lookup_singleton_ne by (intros <-; tauto).
    done.
Qed.

(** X4: rendering the same state twice in a row, with the same readings,
    gives the page of the first render: the style resolver is idempotent. *)
Theorem X4_render_idempotent state h p :
  _render state h (_render state h p) = _render state h p.
Proof.
  rewrite !_render_resolve. cbn [this containerInner_style animationFrames
                                 listening container_position].
  rewrite resolve_idempotent.
  destruct (resolve_this state h (this p)) as (ty & r & Hres).
  assert (listOfRules (resolve state h (this p)) = listOfRules (this p))
    as Hl by (by rewrite Hres).
  by rewrite writeRules_idempotent.
Qed.

(** ** The transitions of the state machine *)

(** X5: the transition graph of [_getState].  From each previous state the
    function returns only the states that [successors] lists, and each of
    them is returned for some input: so [TranslateY] is entered only from
    [ColliderTop] and [ColliderBottom], [TranslateY] and [None] never lead
    to each other in one cycle, [ContainerBottom] never leads to
    [ColliderBottom], and [ColliderTop] never leads to [ColliderBottom]. *)
Theorem X5_transition_graph prev next :
  next ∈ successors prev
  ↔ ∃ direction h c,
      prevState c = prev ∧ (_getState direction h c).1 = next.
Proof.
  split.
  - intros Hin.
    exists (reach prev next).1.1, (reach prev next).1.2, (reach prev next).2.
    destruct prev, next; unfold successors in Hin;
      repeat (apply elem_of_cons in Hin as [Hin|Hin]; try discriminate Hin);
      try (by apply elem_of_nil in Hin);
      split; vm_compute; reflexivity.
  - intros (direction & h & c & <- & <-).
    rewrite _getState_table. unfold transitionTable, successors.
    destruct (prevState c); cbn [firstMatch];
      repeat match goal with
        | |- context [if ?b then _ else _] => destruct b
        end;
      set_solver.
Qed.

(** X6: when [_getState] returns [ColliderTop] from a previous state other
    than [TranslateY], the element fixed at the top of the collider lies
    within the container: the collider top is not above the container top,
    and collider top plus element height is not below the container bottom
    (from [ContainerBottom] this uses that maxTranslateY is containerHeight
    minus the element height). *)
Theorem X6_ColliderTop_inside_container direction h c :
  (_getState direction h c).1 = State.ColliderTop →
  prevState c ≠ State.TranslateY →
  maxTranslateY c = containerHeight c - offsetHeight h →
  containerTop c ≤ colliderTop c
  ∧ colliderTop c + offsetHeight h ≤ containerTop c + containerHeight c.
Proof.
  rewrite _getState_table. unfold transitionTable. intros Hstate Hprev Hmax.
  destruct (prevState c); try done; cbn [firstMatch] in Hstate;
    revert Hstate; repeat case_bool_decide; cbn;
    try destruct (refreshNeeded h c); intros Hstate;
    try discriminate Hstate; lia.
Qed.

Lemma X6_ColliderTop_inside_container_witness :
  let h := hostInput 100 0 in
  let c := atContainerTop in
  (_getState Direction.None h c).1 = State.ColliderTop
  ∧ prevState c ≠ State.TranslateY
  ∧ maxTranslateY c = containerHeight c - offsetHeight h
  ∧ containerTop c ≤ colliderTop c
  ∧ colliderTop c + offsetHeight h ≤ containerTop c + containerHeight c.
Proof.
  cbn zeta.
  assert ((_getState Direction.None (hostInput 100 0) atContainerTop).1
          = State.ColliderTop) as Hs by (vm_compute; reflexivity).
  assert (prevState atContainerTop ≠ State.TranslateY) as Hp
    by (vm_compute; discriminate).
  assert (maxTranslateY atContainerTop
          = containerHeight atContainerTop - offsetHeight (hostInput 100 0))
    as Hm by (vm_compute; reflexivity).
  destruct (X6_ColliderTop_inside_container
              Direction.None (hostInput 100 0) atContainerTop Hs Hp Hm)
    as [Hin1 Hin2].
  split_and!; assumption.
Defined.

(** ** Repeated cycles *)

Lemma scrollState_table h c :
  scrollState h c
  = let c1 := set_colliderTop (scrollY h + spaceTop c) c in
    firstMatch (transitionTable (refreshNeeded h c1) (_getDirection h c1) h c1).
Proof. unfold scrollState. cbn zeta. apply _getState_table. Qed.

Lemma scrollState_at_container_top h c :
  scrollY h + spaceTop c = containerTop c →
  offsetHeight h < colliderHeight c →
  offsetHeight h < containerHeight c →
  (prevState c = State.None → scrollState h c = State.ColliderTop)
  ∧ (prevState c = State.ColliderTop → scrollState h c = State.None).
Proof.
  intros Htop Hband Hbox. rewrite scrollState_table. cbn zeta.
  unfold transitionTable.
  change (prevState (set_colliderTop (scrollY h + spaceTop c) c))
    with (prevState c).
  split; intros ->; cbn [firstMatch]; cbn; rewrite Htop.
  - rewrite bool_decide_false by lia.
    rewrite !bool_decide_true by lia. done.
  - by rewrite bool_decide_true by lia.
Qed.

(** X7: at the boundary the state machine has no resting state.  With the
    collider top exactly at the container top and an element shorter than
    the collider and than the container, a scroll cycle takes [None] to
    [ColliderTop] and the next cycle, with the same readings, takes
    [ColliderTop] back to [None]; the readings still satisfy the conditions,
    so every further cycle flips the state again. *)
Theorem X7_flip_at_container_top h p :
  scrollY h + spaceTop (this p) = containerTop (this p) →
  offsetHeight h < colliderHeight (this p) →
  offsetHeight h < containerHeight (this p) →
  prevState (this p) = State.None →
  let p1 := _calcScroll h p in
  let p2 := _calcScroll h p1 in
  prevState (this p1) = State.ColliderTop
  ∧ prevState (this p2) = State.None
  ∧ scrollY h + spaceTop (this p2) = containerTop (this p2)
  ∧ offsetHeight h < colliderHeight (this p2)
  ∧ offsetHeight h < containerHeight (this p2).
Proof.
  intros Htop Hband Hbox Hprev. cbn zeta.
  destruct (_calcScroll_this h p)
    as ((_ & _ & _ & Hs1 & _) & (Hh1 & _ & _ & Ht1 & Hc1 & _) & _ & _ & _ & _
        & Hp1).
  cbn zeta in *.
  destruct (scrollState_at_container_top h (this p) Htop Hband Hbox)
    as [Hto _].
  rewrite (Hto Hprev) in Hp1. rewrite decide_False in Hp1 by discriminate.
  generalize dependent (_calcScroll h p). intros p1 Hs1 Hh1 Ht1 Hc1 Hp1.
  destruct (_calcScroll_this h p1)
    as ((_ & _ & _ & Hs2 & _) & (Hh2 & _ & _ & Ht2 & Hc2 & _) & _ & _ & _ & _
        & Hp2).
  cbn zeta in *.
  assert (scrollState h (this p1) = State.None) as Hback.
  { apply scrollState_at_container_top; [lia..|done]. }
  rewrite Hback in Hp2. rewrite decide_False in Hp2 by discriminate.
  split_and!; [done|done|lia..].
Qed.

Lemma X7_flip_at_container_top_witness :
  let h := smallElement 100 in
  let p := boundaryPage in
  scrollY h + spaceTop (this p) = containerTop (this p)
  ∧ offsetHeight h < colliderHeight (this p)
  ∧ offsetHeight h < containerHeight (this p)
  ∧ prevState (this p) = State.None
  ∧ prevState (this (_calcScroll h p)) = State.ColliderTop
  ∧ prevState (this (_calcScroll h (_calcScroll h p))) = State.None.
Proof.
  cbn zeta.
  assert (scrollY (smallElement 100) + spaceTop (this boundaryPage)
          = containerTop (this boundaryPage)) as H1
    by (vm_compute; reflexivity).
  assert (offsetHeight (smallElement 100) < colliderHeight (this boundaryPage))
    as H2 by (vm_compute; reflexivity).
  assert (offsetHeight (smallElement 100) < containerHeight (this boundaryPage))
    as H3 by (vm_compute; reflexivity).
  assert (prevState (this boundaryPage) = State.None) as H4
    by (vm_compute; reflexivity).
  destruct (X7_flip_at_container_top (smallElement 100) boundaryPage
              H1 H2 H3 H4) as (Hone & Htwo & _).
  split_and!; assumption.
Defined.

Lemma _getState_Rest_this direction h c :
  (_getState direction h c).1 = State.Rest → (_getState direction h c).2 = c.
Proof.
  unfold _getState.
  repeat case_decide; repeat (case_match; try done); done.
Qed.

Lemma _calcScroll_Rest h p :
  scrollState h (this p) = State.Rest →
  _calcScroll h p = on_this (settle h) p.
Proof.
  intros Hs. rewrite _calcScroll_unfold. cbn zeta.
  unfold scrollState in Hs. cbn zeta in Hs.
  rewrite (_getState_Rest_this _ _ _ Hs), Hs.
  rewrite decide_False by (intros Hn; by apply Hn).
  by destruct p.
Qed.

Lemma settle_Rest h c :
  scrollState h c = State.Rest → scrollState h (settle h c) = State.Rest.
Proof.
  rewrite !scrollState_table. cbn zeta.
  rewrite !firstMatch_Rest by apply transitionTable_targets.
  destruct c as [? ? ? ? ? ? ? ? ? ? ? ? ? ? ? ? ? ? ? ? ? ? ? prev ? ?].
  unfold transitionTable, refreshNeeded, _getDirection, settle.
  cbn. destruct prev; rewrite ?Forall_cons, ?Forall_nil; cbn.
  all: rewrite ?andb_false_iff, ?orb_false_iff, ?bool_decide_eq_false.
  all: rewrite ?(bool_decide_true (scrollY h = scrollY h)) by done.
  all: try done.
  all: intros H; destruct_and!; split_and!; try assumption; try done.
  all: first [by left|by right|intros Hn; by apply Hn].
Qed.

(** X8: [Rest] is stable.  When a scroll cycle computes [Rest] it writes no
    style and keeps the state, the offset and the rules; a second cycle with
    the same readings computes [Rest] again and changes nothing at all. *)
Theorem X8_Rest_is_stable h p :
  scrollState h (this p) = State.Rest →
  _calcScroll h (_calcScroll h p) = _calcScroll h p
  ∧ scrollState h (this (_calcScroll h p)) = State.Rest
  ∧ containerInner_style (_calcScroll h p) = containerInner_style p
  ∧ container_position (_calcScroll h p) = container_position p
  ∧ prevState (this (_calcScroll h p)) = prevState (this p)
  ∧ translateY (this (_calcScroll h p)) = translateY (this p)
  ∧ rules (this (_calcScroll h p)) = rules (this p).
Proof.
  intros Hs. rewrite (_calcScroll_Rest h p Hs).
  assert (scrollState h (this (on_this (settle h) p)) = State.Rest) as Hs'.
  { rewrite this_on_this. by apply settle_Rest. }
  rewrite (_calcScroll_Rest h _ Hs').
  split_and!; done.
Qed.

Lemma X8_Rest_is_stable_witness :
  let h := smallElement 0 in
  let p := boundaryPage in
  scrollState h (this p) = State.Rest
  ∧ _calcScroll h (_calcScroll h p) = _calcScroll h p
  ∧ prevState (this (_calcScroll h p)) = prevState (this p).
Proof.
  cbn zeta.
  assert (scrollState (smallElement 0) (this boundaryPage) = State.Rest)
    as Hs by (vm_compute; reflexivity).
  destruct (X8_Rest_is_stable (smallElement 0) boundaryPage Hs)
    as (Hidem & _ & _ & _ & Hprev & _).
  split_and!; assumption.
Defined.

(** ** What holds between two callbacks *)

Lemma resolve_docked state h c :
  state ∈ [State.None; State.ColliderTop; State.ColliderBottom] →
  translateY (resolve state h c) = 0.
Proof.
  rewrite !elem_of_cons, elem_of_nil. intros [->|[->|[->|[]]]]; reflexivity.
Qed.

(** The [prev...] fields that a scroll cycle leaves alone, and the offset it
    stores. *)
Lemma _calcScroll_prev h p :
  let c := this p in
  let c' := this (_calcScroll h p) in
  prevContainerWidth c' = prevContainerWidth c
  ∧ prevContainerLeft c' = prevContainerLeft c
  ∧ prevContainerTop c' = prevContainerTop c
  ∧ prevElementHeight c' = prevElementHeight c
  ∧ prevSpaceTop c' = prevSpaceTop c
  ∧ prevSpaceBottom c' = prevSpaceBottom c
  ∧ (prevStrategy c' = prevStrategy c ∨ prevStrategy c' = strategy c)
  ∧ (scrollState h c = State.Rest → translateY c' = translateY c)
  ∧ (scrollState h c
       ∈ [State.None; State.ColliderTop; State.ColliderBottom] →
     translateY c' = 0).
Proof.
  cbn zeta. rewrite _calcScroll_unfold. cbn zeta. unfold scrollState.
  cbn zeta. generalize (this p). intros c.
  set (c1 := set_colliderTop _ c).
  assert (prevContainerWidth c1 = prevContainerWidth c
          ∧ prevContainerLeft c1 = prevContainerLeft c
          ∧ prevContainerTop c1 = prevContainerTop c
          ∧ prevElementHeight c1 = prevElementHeight c
          ∧ prevSpaceTop c1 = prevSpaceTop c
          ∧ prevSpaceBottom c1 = prevSpaceBottom c
          ∧ prevStrategy c1 = prevStrategy c
          ∧ strategy c1 = strategy c
          ∧ translateY c1 = translateY c) as Hc1 by done.
  clearbody c1.
  destruct (_getState_this (_getDirection h c1) h c1) as [H2|H2];
    destruct (_getState _ h c1) as [state c2]; cbn [fst snd] in *; subst c2.
  all: destruct (decide (state = State.Rest)) as [->|Hs].
  all: try (rewrite decide_False by (intros Hn; by apply Hn)).
  all: try (rewrite (decide_True (P := state ≠ State.Rest)) by done).
  all: rewrite ?this_on_this; try rewrite _render_resolve; cbn [this set_this].
  all: try match goal with
           | |- context [resolve ?s ?h ?q] =>
               pose proof (resolve_docked s h q) as Hdock;
               destruct (resolve_this s h q) as (ty & r & Hr);
               generalize dependent (resolve s h q); intros c3 Hdock ->
           end.
  all: destruct Hc1 as (? & ? & ? & ? & ? & ? & ? & ? & ?).
  all: cbn; split_and!; try congruence; auto.
  all: try (intros Hin; by apply elem_of_cons in Hin as [Hin|Hin];
            [|apply elem_of_cons in Hin as [Hin|Hin];
              [|apply elem_of_cons in Hin as [Hin|Hin];
                [|apply elem_of_nil in Hin]]]).
  all: intros; congruence.
Qed.

Lemma remembered_prev h c :
  let c' := remembered h c in
  prevContainerWidth c' = containerWidth c
  ∧ prevContainerLeft c' = containerLeft c
  ∧ prevContainerTop c' = containerTop c
  ∧ prevElementHeight c' = offsetHeight h
  ∧ prevSpaceTop c' = spaceTop c
  ∧ prevSpaceBottom c' = spaceBottom c
  ∧ translateY c' = translateY c.
Proof. done. Qed.

Lemma docked_scroll h p :
  docked (this p) → docked (this (_calcScroll h p)).
Proof.
  unfold docked. intros Hy.
  destruct (_calcScroll_this h p) as (_ & _ & _ & _ & _ & _ & Hp').
  destruct (_calcScroll_prev h p) as (_ & _ & _ & _ & _ & _ & _ & Hrest & Hdock).
  cbn zeta in *. rewrite Hp'. intros Hin.
  destruct (decide (scrollState h (this p) = State.Rest)) as [Hr|Hr].
  - rewrite (Hrest Hr). by apply Hy.
  - by apply Hdock.
Qed.

Lemma settled_scroll h p :
  settled (this p) → settled (this (_calcScroll h p)).
Proof.
  unfold settled. intros (Hw & Hl & Ht & Hs & Hm & He & Hy).
  pose proof (docked_scroll h p Hy) as Hy'.
  destruct (_calcScroll_this h p)
    as ((He' & _) & (Hh' & Hw' & Hl' & Ht' & _ & Hm' & Hs') & _).
  destruct (_calcScroll_prev h p)
    as (Hpw & Hpl & Hpt & Hpe & _ & _ & Hps & _).
  cbn zeta in *.
  generalize dependent (this (_calcScroll h p)). intros c' **.
  split_and!; try congruence; try done.
  destruct Hps; congruence.
Qed.

Lemma settled_dims h p :
  docked (this p) → length (events (this p)) = 2%nat →
  settled (this (_calcDims h p)).
Proof.
  intros Hy He. unfold _calcDims. cbn zeta.
  destruct (measured_this h (this p))
    as ((He1 & _) & Hh1 & _ & _ & _ & _ & Hm1 & _ & Hp1 & _).
  cbn zeta in He1, Hh1, Hm1, Hp1.
  assert (docked (measured h (this p))) as Hy1 by exact Hy.
  rewrite <- (this_on_this (measured h) p) in He1, Hh1, Hm1, Hy1.
  rewrite <- He1 in He. clear He1 Hp1.
  generalize dependent (on_this (measured h) p). intros p1 He Hh1 Hm1 Hy1.
  match goal with
  | |- context [on_this (remembered h) ?q] =>
      assert (length (events (this q)) = 2%nat
              ∧ containerHeight (this q) = clientHeight h
              ∧ maxTranslateY (this q) = clientHeight h - offsetHeight h
              ∧ docked (this q)) as H2;
      [|generalize dependent q; intros p2 (He2 & Hh2 & Hm2 & Hy2)]
  end.
  { repeat case_decide.
    - rewrite _render_resolve. cbn [this].
      destruct (resolve_this State.None h (this p1)) as (ty & r & Hr).
      assert (translateY (resolve State.None h (this p1)) = 0) as Hzero
        by reflexivity.
      generalize dependent (resolve State.None h (this p1)).
      intros c2 -> Hzero. split_and!; try done. by intros _.
    - by split_and!.
    - destruct (_calcScroll_this h p1)
        as ((He' & _) & (Hh' & _ & _ & _ & _ & Hm' & _) & _).
      pose proof (docked_scroll h p1 Hy1) as Hy'.
      cbn zeta in *. split_and!; congruence || done. }
  rewrite this_on_this.
  destruct (remembered_this h (this p2))
    as ((He3 & _) & (Hh3 & Hw3 & Hl3 & Ht3 & _ & Hm3 & Hs3) & _ & Hp3 & Hps3).
  destruct (remembered_prev h (this p2))
    as (Hpw & Hpl & Hpt & Hpe & _ & _ & Hty).
  cbn zeta in *. unfold docked in Hy2.
  generalize dependent (remembered h (this p2)). intros c' **.
  unfold settled, docked. split_and!; try congruence; try lia.
  intros Hin. rewrite Hty. apply Hy2. by rewrite <- Hp3.
Qed.

Lemma settled_fields c c' :
  prevContainerWidth c' = prevContainerWidth c →
  containerWidth c' = containerWidth c →
  prevContainerLeft c' = prevContainerLeft c →
  containerLeft c' = containerLeft c →
  prevContainerTop c' = prevContainerTop c →
  containerTop c' = containerTop c →
  prevStrategy c' = prevStrategy c →
  strategy c' = strategy c →
  maxTranslateY c' = maxTranslateY c →
  containerHeight c' = containerHeight c →
  prevElementHeight c' = prevElementHeight c →
  length (events c') = length (events c) →
  prevState c' = prevState c →
  translateY c' = translateY c →
  settled c → settled c'.
Proof.
  unfold settled, docked. intros ? ? ? ? ? ? ? ? ? ? ? ? Hprev Hty Hc.
  destruct Hc as (? & ? & ? & ? & ? & ? & Hd).
  split_and!; try congruence.
  rewrite Hprev, Hty. exact Hd.
Qed.

Lemma settled_raise i c : settled c → settled (raise i c).
Proof.
  unfold raise. case_bool_decide; [|done].
  apply settled_fields; try done. cbn. by rewrite length_insert.
Qed.

Lemma settled_request p : settled (this p) → settled (this (_request p)).
Proof.
  unfold _request. destruct (isRunningRequest (this p)); [done|].
  by apply settled_fields.
Qed.

Lemma settled_frameCallback h p :
  settled (this p) → settled (this (frameCallback h p)).
Proof.
  intros Hp. unfold frameCallback. cbn zeta. rewrite this_on_this.
  match goal with
  | |- context [set_isRunningRequest false (this ?q)] =>
      assert (settled (this q)) as Hq;
      [|generalize dependent (this q); intros c' Hq;
        by apply (settled_fields c')]
  end.
  destruct (flag Item.Resize (this p)); [|destruct (flag Item.Scroll (this p))].
  - apply settled_dims; rewrite this_on_this.
    + by destruct Hp as (_ & _ & _ & _ & _ & _ & ?).
    + cbn. rewrite length_insert. by destruct Hp as (_ & _ & _ & _ & _ & ? & _).
  - apply settled_scroll. rewrite this_on_this.
    revert Hp. apply settled_fields; try done. cbn. by rewrite length_insert.
  - done.
Qed.

Lemma settled_init c : settled (_init c).
Proof. unfold settled, docked. cbn. by split_and!. Qed.

Lemma settled_step p a : settled (this p) → settled (this (step p a)).
Proof.
  intros Hp. destruct a as [h a]. unfold step. cbn [fst snd].
  destruct a as [| | | | |spaces].
  - destruct (listening p); [|done]. unfold _resizeListener.
    apply settled_request. rewrite this_on_this. by apply settled_raise.
  - destruct (listening p); [|done]. unfold _scrollListener.
    apply settled_request. rewrite this_on_this. by apply settled_raise.
  - destruct (animationFrames p) as [|n]; [done|].
    by apply settled_frameCallback.
  - done.
  - unfold disable. rewrite _render_resolve. cbn [this].
    destruct (resolve_this State.None h (this (on_this _init (_removeListeners p))))
      as (ty & r & Hr).
    assert (translateY (resolve State.None h
                          (this (on_this _init (_removeListeners p)))) = 0)
      as Hzero by reflexivity.
    rewrite this_on_this in *.
    pose proof (settled_init (this (_removeListeners p))) as Hi.
    generalize dependent (_init (this (_removeListeners p))). intros c0 **.
    generalize dependent (resolve State.None h c0). intros c1 -> Hzero.
    unfold settled, docked in *. cbn in *. destruct_and!.
    split_and!; first [congruence|by intros _].
  - unfold updateSpaces, _resizeListener.
    apply settled_request. rewrite this_on_this.
    apply settled_raise. rewrite this_on_this. apply settled_init.
Qed.

Lemma run_settled options position style l :
  settled (this (run (newPage options position style) l)).
Proof.
  apply (run_invariant (fun p => settled (this p))).
  - intros p a. apply settled_step.
  - unfold settled, docked. cbn. by split_and!.
Qed.


(** X10: what a scroll cycle that starts between two callbacks never does.
    After every run from the constructor, a scroll cycle does not re-render
    [ContainerBottom] from [ContainerBottom] (the width test can only
    succeed inside a resize cycle), and it re-affirms [ColliderTop] or
    [ColliderBottom] only when the horizontal scroll offset or a space has
    changed. *)
Theorem X10_scroll_cycle_refresh options position style l h :
  let c := this (run (newPage options position style) l) in
  (prevState c = State.ContainerBottom →
   scrollState h c ≠ State.ContainerBottom)
  ∧ (prevState c = State.ColliderTop ∨ prevState c = State.ColliderBottom →
     scrollState h c = prevState c →
     prevViewportScrollX c ≠ scrollX h
     ∨ prevSpaceBottom c ≠ spaceBottom c
     ∨ prevSpaceTop c ≠ spaceTop c).
Proof.
  cbn zeta.
  destruct (run_settled options position style l) as (Hw & Hl & Ht & _).
  generalize dependent (this (run (newPage options position style) l)).
  intros c Hw Hl Ht. rewrite scrollState_table. cbn zeta.
  set (c1 := set_colliderTop (scrollY h + spaceTop c) c).
  assert (refreshNeeded h c1 = true →
          prevViewportScrollX c ≠ scrollX h
          ∨ prevSpaceBottom c ≠ spaceBottom c
          ∨ prevSpaceTop c ≠ spaceTop c) as Hrefresh.
  { unfold refreshNeeded. rewrite !orb_true_iff, !bool_decide_eq_true.
    cbn. tauto. }
  assert (bool_decide (prevContainerWidth c1 ≠ containerWidth c1) = false)
    as Hwidth by (apply bool_decide_eq_false; cbn; tauto).
  unfold transitionTable.
  change (prevState c1) with (prevState c).
  destruct (refreshNeeded h c1).
  - split; [|auto]. intros ->. cbn [firstMatch]. rewrite Hwidth.
    repeat match goal with
      | |- context [if ?b then _ else _] => destruct b
      end; discriminate.
  - split.
    + intros ->. cbn [firstMatch]. rewrite Hwidth.
      repeat match goal with
        | |- context [if ?b then _ else _] => destruct b
        end; discriminate.
    + intros [Hprev|Hprev]; rewrite Hprev; cbn [firstMatch];
        repeat match goal with
          | |- context [if ?b then _ else _] => destruct b
          end; discriminate.
Qed.

(** ** The spaces and their previous values *)

Lemma run_invariant_on (Q : Host * Action → Prop) (P : Page → Prop) :
  (∀ p a, Q a → P p → P (step p a)) →
  ∀ l p, Forall Q l → P p → P (run p l).
Proof.
  intros Hstep l. induction l as [|a l IH]; intros p Hl Hp; [done|].
  apply Forall_cons in Hl as [Ha Hl].
  rewrite run_cons. by apply IH, Hstep.
Qed.

Lemma _calcDims_prevSpaces h p : spacesRemembered (this (_calcDims h p)).
Proof.
  unfold spacesRemembered, _calcDims. cbn zeta. rewrite this_on_this.
  match goal with |- context [remembered h ?c] => generalize c end.
  done.
Qed.

Lemma spacesRemembered_scroll h p :
  spacesRemembered (this p) → spacesRemembered (this (_calcScroll h p)).
Proof.
  unfold spacesRemembered. intros [Ht Hb].
  destruct (_calcScroll_this h p) as ((_ & _ & _ & Ht' & Hb') & _).
  destruct (_calcScroll_prev h p) as (_ & _ & _ & _ & Hpt & Hpb & _).
  cbn zeta in *. split; congruence.
Qed.

Lemma scrollState_unmeasured h c :
  0 ≤ offsetHeight h → unmeasured c →
  scrollState h c ∈ [State.None; State.ContainerBottom; State.Rest].
Proof.
  intros Hh (Hs & Hch & Hct & Hcn & Hm & Hp).
  rewrite scrollState_table. cbn zeta. unfold transitionTable.
  change (prevState (set_colliderTop (scrollY h + spaceTop c) c))
    with (prevState c).
  apply elem_of_cons in Hp as [->|Hp];
    [|apply list_elem_of_singleton in Hp as ->].
  all: cbn [firstMatch]; cbn; rewrite ?Hs, ?Hch, ?Hct, ?Hcn, ?Hm.
  all: repeat case_bool_decide; cbn [andb orb]; try lia; try discriminate.
  all: rewrite !elem_of_cons; auto.
Qed.

Lemma unmeasured_scroll h p :
  0 ≤ offsetHeight h →
  unmeasured (this p) → unmeasured (this (_calcScroll h p)).
Proof.
  intros Hh Hu. pose proof (scrollState_unmeasured h (this p) Hh Hu) as Hin.
  destruct Hu as (Hs & Hch & Hct & Hcn & Hm & Hp).
  destruct (_calcScroll_this h p)
    as (_ & (Hcn' & _ & _ & Hct' & Hch' & Hm' & Hs') & _ & _ & _ & _ & Hp').
  cbn zeta in *. unfold unmeasured. rewrite Hp'.
  split_and!; try congruence.
  case_decide as Hr; [done|].
  rewrite !elem_of_cons in Hin. rewrite !elem_of_cons.
  destruct Hin as [?|[?|[?|Hin]]]; auto; done.
Qed.

Lemma synced_fields c c' :
  spaceTop c' = spaceTop c →
  spaceBottom c' = spaceBottom c →
  prevSpaceTop c' = prevSpaceTop c →
  prevSpaceBottom c' = prevSpaceBottom c →
  strategy c' = strategy c →
  colliderHeight c' = colliderHeight c →
  containerTop c' = containerTop c →
  containerHeight c' = containerHeight c →
  maxTranslateY c' = maxTranslateY c →
  prevState c' = prevState c →
  synced c → synced c'.
Proof.
  unfold synced, spacesRemembered, unmeasured.
  intros ? ? ? ? ? ? ? ? ? Hp [[? ?]|(? & ? & ? & ? & ? & ?)].
  - left. split; congruence.
  - right. rewrite Hp. split_and!; congruence || done.
Qed.

Lemma synced_raise i c : synced c → synced (raise i c).
Proof. unfold raise. case_bool_decide; [|done]. by apply synced_fields. Qed.

Lemma synced_request p : synced (this p) → synced (this (_request p)).
Proof.
  unfold _request. destruct (isRunningRequest (this p)); [done|].
  by apply synced_fields.
Qed.

Lemma unmeasured_init c : unmeasured (_init c).
Proof.
  unfold unmeasured. cbn. split_and!; try done. rewrite !elem_of_cons. auto.
Qed.

Lemma synced_frameCallback h p :
  0 ≤ offsetHeight h →
  synced (this p) → synced (this (frameCallback h p)).
Proof.
  intros Hh Hp. unfold frameCallback. cbn zeta. rewrite this_on_this.
  match goal with
  | |- context [set_isRunningRequest false (this ?q)] =>
      assert (synced (this q)) as Hq;
      [|generalize dependent (this q); intros c' Hq;
        by apply (synced_fields c')]
  end.
  destruct (flag Item.Resize (this p)); [|destruct (flag Item.Scroll (this p))].
  - left. apply _calcDims_prevSpaces.
  - assert (synced (this (on_this (set_flag Item.Scroll false) p))) as Hp'.
    { rewrite this_on_this. revert Hp. by apply synced_fields. }
    generalize dependent (on_this (set_flag Item.Scroll false) p).
    intros q [Hq|Hq]; [left|right].
    + by apply spacesRemembered_scroll.
    + by apply unmeasured_scroll.
  - done.
Qed.

Lemma synced_step p a :
  0 ≤ offsetHeight a.1 → synced (this p) → synced (this (step p a)).
Proof.
  destruct a as [h a]. cbn [fst]. intros Hh Hp. unfold step. cbn [fst snd].
  destruct a as [| | | | |spaces].
  - destruct (listening p); [|done]. unfold _resizeListener.
    apply synced_request. rewrite this_on_this. by apply synced_raise.
  - destruct (listening p); [|done]. unfold _scrollListener.
    apply synced_request. rewrite this_on_this. by apply synced_raise.
  - destruct (animationFrames p) as [|n]; [done|].
    by apply synced_frameCallback.
  - done.
  - unfold disable. rewrite _render_None, this_on_this.
    pose proof (unmeasured_init (this (_removeListeners p))) as Hi.
    generalize dependent (_init (this (_removeListeners p))). intros c0 Hi.
    right. exact Hi.
  - unfold updateSpaces, _resizeListener.
    apply synced_request. rewrite this_on_this.
    apply synced_raise. rewrite this_on_this. right. apply unmeasured_init.
Qed.

Lemma run_synced options position style l :
  realHeights l → synced (this (run (newPage options position style) l)).
Proof.
  intros Hl.
  apply (run_invariant_on (fun a => 0 ≤ offsetHeight a.1)
           (fun p => synced (this p))); [|exact Hl|by left].
  intros p a. apply synced_step.
Qed.

(** X11: the two space comparisons of the refresh condition never fire.
    Along every run from the constructor in which the element height is
    never negative, whenever the stored state is [ColliderTop] or
    [ColliderBottom] (the states whose rows end in the refresh condition)
    the previous spaces equal the spaces, and the refresh condition is the
    change of the horizontal scroll offset alone: [updateSpaces] resets the
    state to [None], and from there no scroll cycle reaches one of the two
    states before a resize cycle has stored the spaces. *)
Theorem X11_spaces_never_refresh options position style l :
  realHeights l →
  let c := this (run (newPage options position style) l) in
  prevState c = State.ColliderTop ∨ prevState c = State.ColliderBottom →
  (prevSpaceTop c = spaceTop c ∧ prevSpaceBottom c = spaceBottom c)
  ∧ ∀ h y, refreshNeeded h (set_colliderTop y c)
           = bool_decide (prevViewportScrollX c ≠ scrollX h).
Proof.
  intros Hl. cbn zeta.
  destruct (run_settled options position style l) as (Hw & Hx & Ht & _).
  pose proof (run_synced options position style l Hl) as Hs.
  generalize dependent (this (run (newPage options position style) l)).
  intros c Hw Hx Ht Hs Hprev.
  assert (prevSpaceTop c = spaceTop c ∧ prevSpaceBottom c = spaceBottom c)
    as [Hst Hsb].
  { destruct Hs as [Hs|(_ & _ & _ & _ & _ & Hin)]; [exact Hs|].
    rewrite !elem_of_cons in Hin.
    destruct Hprev as [Hprev|Hprev]; rewrite Hprev in Hin;
      destruct Hin as [?|[?|Hin]]; try discriminate;
      by apply elem_of_nil in Hin. }
  split; [done|]. intros h y. unfold refreshNeeded. cbn.
  rewrite (bool_decide_false (prevContainerLeft c ≠ containerLeft c)) by tauto.
  rewrite (bool_decide_false (prevContainerWidth c ≠ containerWidth c)) by tauto.
  rewrite (bool_decide_false (prevContainerTop c ≠ containerTop c)) by tauto.
  rewrite (bool_decide_false (prevSpaceBottom c ≠ spaceBottom c)) by tauto.
  rewrite (bool_decide_false (prevSpaceTop c ≠ spaceTop c)) by tauto.
  by rewrite !orb_false_r.
Qed.

Lemma X11_spaces_never_refresh_witness :
  let l := enabled tallSidebar ++ scrolledTo tallSidebar 450 in
  let c := this (run (newPage readmeOptions "static" ∅) l) in
  realHeights l
  ∧ prevState c = State.ColliderBottom
  ∧ prevSpaceTop c = spaceTop c
  ∧ prevSpaceBottom c = spaceBottom c
  ∧ refreshNeeded (tallSidebar 450) (set_colliderTop 514 c)
    = bool_decide (prevViewportScrollX c ≠ scrollX (tallSidebar 450)).
Proof.
  cbn zeta.
  assert (realHeights (enabled tallSidebar ++ scrolledTo tallSidebar 450))
    as Hl.
  { unfold realHeights. cbn.
    repeat (apply Forall_cons; split; [by vm_compute|]). by apply Forall_nil. }
  assert (prevState
            (this (run (newPage readmeOptions "static" ∅)
                     (enabled tallSidebar ++ scrolledTo tallSidebar 450)))
          = State.ColliderBottom) as Hp by (vm_compute; reflexivity).
  destruct (X11_spaces_never_refresh readmeOptions "static" ∅ _ Hl
              (or_intror Hp)) as [[Ht Hb] Hr].
  split_and!; [exact Hl|exact Hp|exact Ht|exact Hb|apply Hr].
Defined.

(** ** Disabling, and what follows it *)

Lemma frameCallback_prevSpaces h p :
  let c := this p in
  let c' := this (frameCallback h p) in
  (prevSpaceTop c' = prevSpaceTop c ∧ prevSpaceBottom c' = prevSpaceBottom c)
  ∨ (prevSpaceTop c' = spaceTop c ∧ prevSpaceBottom c' = spaceBottom c).
Proof.
  unfold frameCallback. cbn zeta. rewrite this_on_this.
  match goal with
  | |- context [set_isRunningRequest false (this ?q)] =>
      assert ((prevSpaceTop (this q) = prevSpaceTop (this p)
               ∧ prevSpaceBottom (this q) = prevSpaceBottom (this p))
              ∨ (prevSpaceTop (this q) = spaceTop (this p)
                 ∧ prevSpaceBottom (this q) = spaceBottom (this p))) as H;
      [|generalize dependent (this q); intros c' H; exact H]
  end.
  destruct (flag Item.Resize (this p)); [|destruct (flag Item.Scroll (this p))].
  - right.
    destruct (_calcDims_prevSpaces h (on_this (set_flag Item.Resize false) p))
      as [Ht Hb].
    destruct (_calcDims_this h (on_this (set_flag Item.Resize false) p))
      as ((_ & _ & _ & Ht' & Hb') & _).
    cbn zeta in *. rewrite Ht, Hb, Ht', Hb'. done.
  - left.
    destruct (_calcScroll_prev h (on_this (set_flag Item.Scroll false) p))
      as (_ & _ & _ & _ & Ht & Hb & _).
    cbn zeta in *. rewrite Ht, Hb. done.
  - by left.
Qed.

Lemma asConstructed_fields options c c' :
  spaceTop c' = spaceTop c →
  spaceBottom c' = spaceBottom c →
  prevSpaceTop c' = prevSpaceTop c →
  prevSpaceBottom c' = prevSpaceBottom c →
  listOfRules c' = listOfRules c →
  asConstructed options c → asConstructed options c'.
Proof.
  unfold asConstructed. intros ? ? ? ? ? (? & ? & ? & ? & ?).
  split_and!; congruence.
Qed.

Lemma asConstructed_step options p a :
  keepsSpaces a →
  asConstructed options (this p) → asConstructed options (this (step p a)).
Proof.
  destruct a as [h a]. unfold keepsSpaces, step. cbn [fst snd].
  intros Ha Hp. destruct a as [| | | | |spaces]; [| | | | |done].
  - destruct (listening p); [|done]. unfold _resizeListener.
    destruct (_request_this (on_this (raise Item.Resize) p))
      as (_ & Hl & Ht & Hb & _).
    cbn zeta in *. rewrite this_on_this in *.
    assert (asConstructed options (raise Item.Resize (this p))) as Hr.
    { unfold raise. case_bool_decide; [|done]. revert Hp.
      by apply asConstructed_fields. }
    revert Hr. apply asConstructed_fields; try done.
    all: unfold _request; rewrite this_on_this;
      by destruct (isRunningRequest _).
  - destruct (listening p); [|done]. unfold _scrollListener.
    destruct (_request_this (on_this (raise Item.Scroll) p))
      as (_ & Hl & Ht & Hb & _).
    cbn zeta in *. rewrite this_on_this in *.
    assert (asConstructed options (raise Item.Scroll (this p))) as Hr.
    { unfold raise. case_bool_decide; [|done]. revert Hp.
      by apply asConstructed_fields. }
    revert Hr. apply asConstructed_fields; try done.
    all: unfold _request; rewrite this_on_this;
      by destruct (isRunningRequest _).
  - destruct (animationFrames p) as [|n]; [done|].
    destruct (frameCallback_this h (set_animationFrames n p))
      as (Hl & Ht & Hb & _).
    destruct (frameCallback_prevSpaces h (set_animationFrames n p)) as [Hs|Hs].
    all: cbn zeta in *.
    all: change (this (set_animationFrames n p)) with (this p) in *.
    all: destruct Hs as [Hpt Hpb]; destruct Hp as (? & ? & ? & ? & ?).
    all: assert (spaceTop (constructor options)
                 = prevSpaceTop (constructor options)) by reflexivity.
    all: assert (spaceBottom (constructor options)
                 = prevSpaceBottom (constructor options)) by reflexivity.
    all: generalize dependent (this (frameCallback h (set_animationFrames n p))).
    all: intros c' **; unfold asConstructed; split_and!; congruence.
  - done.
  - unfold disable. rewrite _render_None, this_on_this.
    change (this (_removeListeners p)) with (this p).
    revert Hp. by apply asConstructed_fields.
Qed.

Lemma run_asConstructed options position style l :
  Forall keepsSpaces l →
  asConstructed options (this (run (newPage options position style) l)).
Proof.
  intros Hl.
  apply (run_invariant_on keepsSpaces
           (fun p => asConstructed options (this p))); [|exact Hl|done].
  intros p a. apply asConstructed_step.
Qed.

(** X12: [disable()] takes the controller back to where the constructor
    left it.  After every run from the constructor without a call of
    [updateSpaces], every field of [this] has after [disable()] the value
    that [new StickNRoll(container, containerInner, options)] gave it. *)
Theorem X12_disable_returns_to_constructor options position style l h :
  Forall keepsSpaces l →
  this (disable h (run (newPage options position style) l))
  = constructor options.
Proof.
  intros Hl. pose proof (run_asConstructed options position style l Hl) as Hc.
  generalize dependent (run (newPage options position style) l).
  intros p Hc. unfold disable. rewrite _render_None, this_on_this.
  change (this (_removeListeners p)) with (this p).
  generalize dependent (this p). intros c (Ht & Hb & Hpt & Hpb & Hr).
  destruct c. cbn in *. subst. reflexivity.
Qed.

Lemma X12_disable_returns_to_constructor_witness :
  let l := enabled tallSidebar ++ scrolledTo tallSidebar 450 in
  Forall keepsSpaces l
  ∧ prevState (this (run (newPage readmeOptions "static" ∅) l))
    = State.ColliderBottom
  ∧ this (disable (tallSidebar 450)
            (run (newPage readmeOptions "static" ∅) l))
    = constructor readmeOptions.
Proof.
  cbn zeta.
  assert (Forall keepsSpaces
            (enabled tallSidebar ++ scrolledTo tallSidebar 450)) as Hl.
  { cbn. repeat (apply Forall_cons; split; [exact I|]). by apply Forall_nil. }
  split_and!; [exact Hl|by vm_compute|].
  exact (X12_disable_returns_to_constructor readmeOptions "static" ∅ _
           (tallSidebar 450) Hl).
Defined.

Lemma disable_flag h p i : flag i (this (disable h p)) = false.
Proof. by destruct i. Qed.

Lemma disabled_signal h p q a :
  this q = this (disable h p) → listening q = false →
  let q' := step q (a.1, signalAction a.2) in
  this q' = this (disable h p)
  ∧ listening q' = false
  ∧ container_position q' = container_position q
  ∧ containerInner_style q' = containerInner_style q.
Proof.
  intros Hthis Hl. destruct a as [h' s]. cbn zeta. unfold step.
  cbn [fst snd]. destruct s; cbn [signalAction].
  - by rewrite Hl.
  - by rewrite Hl.
  - destruct (animationFrames q) as [|n]; [done|].
    unfold frameCallback. cbn zeta.
    change (this (set_animationFrames n q)) with (this q).
    rewrite Hthis, !disable_flag. rewrite this_on_this.
    change (this (set_animationFrames n q)) with (this q).
    rewrite Hthis. split_and!; [reflexivity|exact Hl|reflexivity..].
Qed.

Lemma disabled_signals h p l :
  ∀ q, this q = this (disable h p) → listening q = false →
  this (run q (signals l)) = this (disable h p)
  ∧ listening (run q (signals l)) = false
  ∧ container_position (run q (signals l)) = container_position q
  ∧ containerInner_style (run q (signals l)) = containerInner_style q.
Proof.
  induction l as [|a l IH]; intros q Hthis Hl; [done|].
  unfold signals. rewrite fmap_cons. fold (signals l). rewrite run_cons.
  destruct (disabled_signal h p q a Hthis Hl) as (Hthis' & Hl' & Hp' & Hs').
  cbn zeta in *. change (prod_map id signalAction a) with (a.1, signalAction a.2).
  destruct (IH _ Hthis' Hl') as (-> & -> & -> & ->). done.
Qed.

(** X13: after [disable()] the browser changes nothing any more.  Whatever
    the page was, and also with a callback still pending, the resize
    notifications, scroll events and animation frames that follow
    [disable()] leave every field of [this], the styles of the element and
    the position of the container as [disable()] left them, and the
    listeners stay detached. *)
Theorem X13_disabled_page_is_quiet h p l :
  let q := disable h p in
  let q' := run q (signals l) in
  this q' = this q
  ∧ containerInner_style q' = containerInner_style q
  ∧ container_position q' = container_position q
  ∧ listening q' = false.
Proof.
  cbn zeta.
  destruct (disabled_signals h p l (disable h p) eq_refl eq_refl)
    as (? & ? & ? & ?).
  done.
Qed.

(** ** Callbacks for what was recorded *)

Lemma frameCallback_flag_Resize h p :
  flag Item.Resize (this (frameCallback h p)) = false.
Proof.
  unfold frameCallback. cbn zeta. rewrite this_on_this.
  match goal with
  | |- context [set_isRunningRequest false (this ?q)] =>
      assert (flag Item.Resize (this q) = false) as H;
      [|generalize dependent (this q); intros c' H; exact H]
  end.
  destruct (flag Item.Resize (this p)) eqn:Hr;
    [|destruct (flag Item.Scroll (this p))].
  - destruct (_calcDims_this h (on_this (set_flag Item.Resize false) p))
      as ((He & _) & _).
    cbn zeta in He. unfold flag. rewrite He, this_on_this.
    apply bool_decide_eq_false. cbn. by destruct (events (this p)).
  - destruct (_calcScroll_this h (on_this (set_flag Item.Scroll false) p))
      as ((He & _) & _).
    cbn zeta in He. unfold flag in *. rewrite He, this_on_this.
    rewrite <- Hr. cbn. by destruct (events (this p)).
  - exact Hr.
Qed.

Lemma awaited_listener i p : awaited p → awaited (_request (on_this (raise i) p)).
Proof.
  unfold awaited. intros Hp _.
  destruct (_request_page (on_this (raise i) p)) as (_ & _ & _ & ->).
  rewrite this_on_this.
  destruct (raise_this i (this p)) as (_ & -> & _).
  destruct (isRunningRequest (this p)) eqn:Hg; [|cbn; lia].
  apply Hp. by right.
Qed.

Lemma awaited_step p a : awaited p → awaited (step p a).
Proof.
  intros Hp. destruct a as [h a]. unfold step. cbn [fst snd].
  destruct a as [| | | | |spaces].
  - destruct (listening p); [|done]. by apply awaited_listener.
  - destruct (listening p); [|done]. by apply awaited_listener.
  - destruct (animationFrames p) as [|n]; [done|].
    unfold awaited. rewrite frameCallback_flag_Resize.
    destruct (frameCallback_this h (set_animationFrames n p))
      as (_ & _ & _ & -> & _).
    by intros [|].
  - done.
  - unfold awaited. rewrite disable_flag. intros [|]; done.
  - unfold awaited. intros _.
    destruct (updateSpaces_page spaces p) as (_ & _ & _ & _ & _ & -> & _).
    lia.
Qed.

(** X14: no resize notification is left without its callback.  After every
    run from the constructor, of browser signals and of method calls alike,
    a raised resize flag or a set guard comes with at least one callback
    that the browser has still to run; that callback will run the resize
    cycle. *)
Theorem X14_recorded_resize_has_callback options position style l :
  let p := run (newPage options position style) l in
  flag Item.Resize (this p) = true ∨ isRunningRequest (this p) = true →
  (0 < animationFrames p)%nat.
Proof.
  cbn zeta. apply (run_invariant awaited); [apply awaited_step|].
  by intros [|].
Qed.

Lemma X14_recorded_resize_has_callback_witness :
  let p := run (newPage None "static" ∅)
             [(viewport800, Enable); (viewport800, ResizeNotification);
              (viewport800, UpdateSpaces (Spaces.mk None (Some 64)))] in
  flag Item.Resize (this p) = true
  ∧ (0 < animationFrames p)%nat.
Proof.
  cbn zeta.
  assert (flag Item.Resize
            (this (run (newPage None "static" ∅)
                     [(viewport800, Enable); (viewport800, ResizeNotification);
                      (viewport800, UpdateSpaces (Spaces.mk None (Some 64)))]))
          = true) as Hf by (vm_compute; reflexivity).
  split; [exact Hf|].
  exact (X14_recorded_resize_has_callback None "static" ∅ _ (or_introl Hf)).
Defined.

(** ** The first cycle after a reset *)

Lemma _render_ColliderTop h p :
  this (_render State.ColliderTop h p)
  = set_rules (fixedAtTop h (this p)) (set_translateY 0 (this p)).
Proof. reflexivity. Qed.

Lemma _calcScroll_ColliderTop h p :
  scrollState h (this p) = State.ColliderTop →
  let p' := _calcScroll h p in
  prevState (this p') = State.ColliderTop
  ∧ container_position p' = "initial"
  ∧ containerInner_style p'
    = writeRules (listOfRules (this p)) (fixedAtTop h (this p))
        (containerInner_style p).
Proof.
  intros Hs. cbn zeta.
  destruct (_calcScroll_this h p) as (_ & _ & _ & _ & _ & _ & Hprev).
  cbn zeta in Hprev. rewrite Hs in Hprev.
  rewrite decide_False in Hprev by discriminate.
  split; [exact Hprev|]. clear Hprev.
  rewrite _calcScroll_unfold. cbn zeta.
  unfold scrollState in Hs. cbn zeta in Hs.
  set (c1 := set_colliderTop _ (this p)) in *.
  assert (fixedAtTop h c1 = fixedAtTop h (this p)) as Hh by reflexivity.
  assert (listOfRules c1 = listOfRules (this p)) as Hl by reflexivity.
  clearbody c1.
  destruct (_getState_this (_getDirection h c1) h c1) as [H2|H2];
    destruct (_getState _ h c1) as [state c2]; cbn [fst snd] in *; subst.
  all: rewrite decide_True by done.
  all: match goal with
       | |- context [_render ?s ?h ?q] =>
           destruct (_render_page s h q) as (Hcp & Hst & _);
           pose proof (_render_ColliderTop h q) as Hth
       end.
  all: repeat (match goal with
               | |- context [containerInner_style (on_this ?f ?q)] =>
                   destruct (on_this_page f q) as (-> & -> & _)
               end).
  all: rewrite Hcp, Hst, Hth; cbn [this set_this].
  all: change (fixedAtTop h (set_prevStrategy (strategy c1) c1))
         with (fixedAtTop h c1).
  all: rewrite Hh; cbn; rewrite ?Hl; done.
Qed.

(** The state that the resize cycle computes right after a reset, where the
    element fits in the band and the top of the band is inside the
    container. *)
Lemma scrollState_measured_None h c :
  let box := _getCoords (containerOffsets h) (containerAncestors h) in
  prevState c = State.None →
  offsetHeight h < innerHeight h - spaceTop c - spaceBottom c →
  top box ≤ scrollY h + spaceTop c →
  scrollY h + spaceTop c + offsetHeight h < top box + clientHeight h →
  strategy (measured h c) ≠ Strategy.None
  ∧ scrollState h (measured h c) = State.ColliderTop.
Proof.
  cbn zeta. intros Hprev Hband Htop Hbottom.
  destruct (measured_this h c)
    as ((_ & _ & _ & Hst & _) & Hch & _ & _ & Hct & Hcl & _ & Hs & Hp & _).
  cbn zeta in *. rewrite Hprev in Hp.
  generalize dependent (measured h c). intros c1 **. split.
  - rewrite Hs. unfold classify. rewrite bool_decide_false by lia.
    by case_bool_decide.
  - rewrite scrollState_table. cbn zeta. unfold transitionTable.
    change (prevState (set_colliderTop (scrollY h + spaceTop c1) c1))
      with (prevState c1).
    rewrite Hp. cbn [firstMatch]. cbn. rewrite Hch, Hct, Hcl, Hst.
    rewrite bool_decide_false by lia. rewrite !bool_decide_true by lia.
    done.
Qed.

Lemma _calcDims_ColliderTop h p :
  let box := _getCoords (containerOffsets h) (containerAncestors h) in
  prevState (this p) = State.None →
  offsetHeight h < innerHeight h - spaceTop (this p) - spaceBottom (this p) →
  top box ≤ scrollY h + spaceTop (this p) →
  scrollY h + spaceTop (this p) + offsetHeight h < top box + clientHeight h →
  let p' := _calcDims h p in
  prevState (this p') = State.ColliderTop
  ∧ container_position p' = "initial"
  ∧ containerInner_style p'
    = writeRules (listOfRules (this p))
        {[ "top" := px (spaceTop (this p));
           "left" := px (left box - scrollX h);
           "position" := "fixed";
           "width" := px (clientWidth h) ]}
        (containerInner_style p).
Proof.
  cbn zeta. intros Hprev Hband Htop Hbottom.
  destruct (scrollState_measured_None h (this p) Hprev Hband Htop Hbottom)
    as [Hs Hc].
  destruct (measured_this h (this p))
    as ((_ & _ & Hl & Hst & _) & _ & _ & Hcl & _).
  cbn zeta in Hl, Hst, Hcl.
  destruct (on_this_page (measured h) p) as (_ & Hsty & _).
  unfold _calcDims. cbn zeta.
  rewrite <- (this_on_this (measured h) p) in Hs, Hc, Hl, Hst, Hcl.
  generalize dependent (on_this (measured h) p). intros p1 **.
  rewrite decide_False by done.
  destruct (_calcScroll_ColliderTop h p1 Hc) as (Hp' & Hcp' & Hst').
  cbn zeta in *.
  rewrite this_on_this.
  match goal with
  | |- context [on_this (remembered h) ?q] =>
      destruct (on_this_page (remembered h) q) as (-> & -> & _);
      destruct (remembered_this h (this q)) as (_ & _ & _ & -> & _)
  end.
  split_and!; [exact Hp'|exact Hcp'|].
  rewrite Hst'. unfold fixedAtTop. by rewrite Hl, Hst, Hcl, Hsty.
Qed.

Lemma frameCallback_resize_branch h p :
  flag Item.Resize (this p) = true →
  frameCallback h p
  = on_this (set_isRunningRequest false)
      (_calcDims h (on_this (set_flag Item.Resize false) p)).
Proof. intros Hr. unfold frameCallback. by rewrite Hr. Qed.

Lemma fixedRules_lookup (t l w : string) :
  let r : gmap string string :=
    {[ "top" := t; "left" := l; "position" := "fixed"; "width" := w ]} in
  r !! "width" = Some w
  ∧ r !! "left" = Some l
  ∧ r !! "top" = Some t
  ∧ r !! "position" = Some "fixed"
  ∧ r !! "transform" = None.
Proof. split_and!; vm_compute; reflexivity. Qed.

(** The callback of a raised resize flag on a page whose stored state is
    [None]: what it renders where the element fits in the band and the top
    of the band is inside the container. *)
Lemma frameCallback_fixes_at_top h p position :
  let box := _getCoords (containerOffsets h) (containerAncestors h) in
  flag Item.Resize (this p) = true →
  prevState (this p) = State.None →
  listOfRules (this p) = defaultRules position →
  offsetHeight h < innerHeight h - spaceTop (this p) - spaceBottom (this p) →
  top box ≤ scrollY h + spaceTop (this p) →
  scrollY h + spaceTop (this p) + offsetHeight h < top box + clientHeight h →
  let p' := frameCallback h p in
  prevState (this p') = State.ColliderTop
  ∧ container_position p' = "initial"
  ∧ containerInner_style p' !! "position" = Some "fixed"
  ∧ containerInner_style p' !! "top" = Some (px (spaceTop (this p)))
  ∧ containerInner_style p' !! "left" = Some (px (left box - scrollX h))
  ∧ containerInner_style p' !! "width" = Some (px (clientWidth h))
  ∧ containerInner_style p' !! "transform" = Some "initial".
Proof.
  cbn zeta. intros Hr Hprev Hrules Hband Htop Hbottom.
  rewrite (frameCallback_resize_branch h p Hr).
  destruct (_calcDims_ColliderTop h (on_this (set_flag Item.Resize false) p)
              Hprev Hband Htop Hbottom) as (Hp' & Hcp' & Hst').
  cbn zeta in *.
  generalize dependent (_calcDims h (on_this (set_flag Item.Resize false) p)).
  intros q Hp' Hcp' Hst'.
  destruct (on_this_page (set_isRunningRequest false) q) as (-> & -> & _).
  rewrite this_on_this.
  change (prevState (set_isRunningRequest false (this q)))
    with (prevState (this q)).
  split_and!; [exact Hp'|exact Hcp'|..].
  all: rewrite Hst', writeRules_lookup, this_on_this.
  all: change (listOfRules (set_flag Item.Resize false (this p)))
         with (listOfRules (this p)).
  all: rewrite Hrules.
  all: destruct (defaultRules_lookup position)
         as (Hdw & Hdl & Hdt & Hdp & Hdtr).
  all: rewrite ?Hdw, ?Hdl, ?Hdt, ?Hdp, ?Hdtr.
  all: match goal with
       | |- context [ {[ "top" := ?t; "left" := ?l; "position" := "fixed";
                         "width" := ?w ]} ] =>
           destruct (fixedRules_lookup t l w) as (Hw & Hl & Ht & Hp & Htr)
       end.
  all: cbn zeta in *; rewrite ?Hw, ?Hl, ?Ht, ?Hp, ?Htr; reflexivity.
Qed.



(** X16: [updateSpaces] takes effect at the next animation frame, whatever
    happened before and whether or not the listeners are attached.  After
    every run from the constructor, where with the new spaces the element
    fits in the band and the top of the band is inside the container, short
    of its bottom by more than the element height, the frame that follows
    [updateSpaces] fixes the element at the new spaceTop. *)
Theorem X16_updateSpaces_next_frame options position style l spaces h :
  let st := default 0 (Spaces.spaceTop spaces) in
  let sb := default 0 (Spaces.spaceBottom spaces) in
  let box := _getCoords (containerOffsets h) (containerAncestors h) in
  offsetHeight h < innerHeight h - st - sb →
  top box ≤ scrollY h + st →
  scrollY h + st + offsetHeight h < top box + clientHeight h →
  let p := run (newPage options position style)
             (l ++ [(h, UpdateSpaces spaces); (h, AnimationFrame)]) in
  prevState (this p) = State.ColliderTop
  ∧ container_position p = "initial"
  ∧ containerInner_style p !! "position" = Some "fixed"
  ∧ containerInner_style p !! "top" = Some (px st)
  ∧ containerInner_style p !! "left" = Some (px (left box - scrollX h))
  ∧ containerInner_style p !! "width" = Some (px (clientWidth h))
  ∧ containerInner_style p !! "transform" = Some "initial".
Proof.
  cbn zeta. intros Hband Htop Hbottom.
  unfold run. rewrite foldl_app. fold (run (newPage options position style) l).
  pose proof (run_listOfRules (newPage options position style) l) as Hrules.
  change (listOfRules (this (newPage options position style)))
    with (defaultRules (default "initial" (options ≫= OptionsType.position)))
    in Hrules.
  generalize dependent (run (newPage options position style) l).
  intros p Hrules.
  set (p0 := set_animationFrames (animationFrames p) (updateSpaces spaces p)).
  change (foldl step p [(h, UpdateSpaces spaces); (h, AnimationFrame)])
    with (frameCallback h p0).
  apply (frameCallback_fixes_at_top h p0
           (default "initial" (options ≫= OptionsType.position)));
    try reflexivity; try assumption.
Qed.

Lemma X16_updateSpaces_next_frame_witness :
  let p := run (newPage None "static" ∅)
             ([(smallElement 200, Enable); (smallElement 200, Disable)]
              ++ [(smallElement 200, UpdateSpaces (Spaces.mk None (Some 64)));
                  (smallElement 200, AnimationFrame)]) in
  listening p = false
  ∧ prevState (this p) = State.ColliderTop
  ∧ containerInner_style p !! "position" = Some "fixed"
  ∧ containerInner_style p !! "top" = Some "64px".
Proof.
  cbn zeta.
  destruct (X16_updateSpaces_next_frame None "static" ∅
              [(smallElement 200, Enable); (smallElement 200, Disable)]
              (Spaces.mk None (Some 64)) (smallElement 200))
    as (Hp & _ & Hpos & Htop & _); [by vm_compute..|].
  split_and!; [by vm_compute|exact Hp|exact Hpos|exact Htop].
Defined.

(** ** A resize cycle that finds the strategy [None], and the next one *)

(** The resize cycle where the element is at least as high as its
    container. *)
Lemma _calcDims_None_this h p :
  clientHeight h ≤ offsetHeight h →
  let c1 := measured h (this p) in
  this (_calcDims h p)
  = remembered h
      (if decide (prevStrategy c1 ≠ Strategy.None)
       then set_rules ∅ (set_translateY 0 c1) else c1)
  ∧ containerInner_style (_calcDims h p)
    = (if decide (prevStrategy c1 ≠ Strategy.None)
       then writeRules (listOfRules (this p)) ∅ (containerInner_style p)
       else containerInner_style p).
Proof.
  intros Hh. cbn zeta.
  destruct (measured_this h (this p))
    as ((_ & _ & Hl & _) & _ & _ & _ & _ & _ & _ & Hs & _).
  cbn zeta in Hl, Hs. unfold classify in Hs.
  rewrite bool_decide_true in Hs by done.
  destruct (on_this_page (measured h) p) as (_ & Hst & _).
  unfold _calcDims. cbn zeta.
  rewrite <- (this_on_this (measured h) p) in *.
  generalize dependent (on_this (measured h) p). intros p1 Hl Hs Hst.
  rewrite decide_True by done. rewrite Hs.
  match goal with
  | |- context [on_this (remembered h) ?q] =>
      rewrite this_on_this;
      destruct (on_this_page (remembered h) q) as (_ & -> & _)
  end.
  case_decide.
  - destruct (_render_page State.None h p1) as (_ & -> & _).
    rewrite _render_None. cbn [rules set_rules]. by rewrite Hl, Hst.
  - by rewrite Hst.
Qed.

(** The resize cycle whose scroll cycle computes [Rest] writes no style and
    keeps the state. *)
Lemma _calcDims_Rest h p :
  strategy (measured h (this p)) ≠ Strategy.None →
  scrollState h (measured h (this p)) = State.Rest →
  containerInner_style (_calcDims h p) = containerInner_style p
  ∧ container_position (_calcDims h p) = container_position p
  ∧ prevState (this (_calcDims h p)) = prevState (this p).
Proof.
  intros Hs Hr.
  assert (prevState (measured h (this p)) = prevState (this p)) as Hp
    by reflexivity.
  destruct (on_this_page (measured h) p) as (Hcp & Hst & _).
  unfold _calcDims. cbn zeta.
  rewrite <- (this_on_this (measured h) p) in *.
  generalize dependent (on_this (measured h) p). intros p1 **.
  rewrite decide_False by done.
  rewrite (_calcScroll_Rest h p1 Hr).
  rewrite !this_on_this.
  generalize dependent (this p1). intros c1 **.
  cbn. by rewrite <- Hp.
Qed.

(** The state that a resize cycle computes from [ColliderTop] when the last
    resize cycle found the strategy [None] and nothing but the element
    height has changed since. *)
Lemma scrollState_measured_stale h c :
  let box := _getCoords (containerOffsets h) (containerAncestors h) in
  prevState c = State.ColliderTop →
  prevStrategy c = Strategy.None →
  prevViewportScrollX c = scrollX h →
  prevContainerLeft c = left box →
  prevContainerTop c = top box →
  prevContainerWidth c = clientWidth h →
  spacesRemembered c →
  offsetHeight h < innerHeight h - spaceTop c - spaceBottom c →
  top box < scrollY h + spaceTop c →
  scrollY h + spaceTop c + offsetHeight h < top box + clientHeight h →
  strategy (measured h c) ≠ Strategy.None
  ∧ scrollState h (measured h c) = State.Rest.
Proof.
  cbn zeta. intros Hprev Hps Hx Hpl Hpt Hpw [Hst Hsb] Hband Htop Hbottom.
  destruct (measured_this h c)
    as ((_ & _ & _ & Ht & Hb) & Hch & Hcw & Hcl & Hct & Hcc & _ & Hs & Hp & Hq).
  cbn zeta in *.
  assert (prevViewportScrollX (measured h c) = prevViewportScrollX c
          ∧ prevContainerLeft (measured h c) = prevContainerLeft c
          ∧ prevContainerTop (measured h c) = prevContainerTop c
          ∧ prevContainerWidth (measured h c) = prevContainerWidth c
          ∧ prevSpaceTop (measured h c) = prevSpaceTop c
          ∧ prevSpaceBottom (measured h c) = prevSpaceBottom c)
    as (Hx' & Hpl' & Hpt' & Hpw' & Hst' & Hsb') by done.
  rewrite Hprev in Hp. rewrite Hps in Hq.
  rewrite Hx in Hx'. rewrite Hpl in Hpl'. rewrite Hpt in Hpt'.
  rewrite Hpw in Hpw'. rewrite Hst in Hst'. rewrite Hsb in Hsb'.
  rewrite <- Ht in Hst'. rewrite <- Hb in Hsb'.
  rewrite <- Hct in Hpt'. rewrite <- Hcl in Hpl'. rewrite <- Hcw in Hpw'.
  assert (strategy (measured h c) = Strategy.Top) as Hs'.
  { rewrite Hs. unfold classify. by rewrite !bool_decide_false by lia. }
  clear Hs.
  generalize dependent (measured h c). intros c1 **. split.
  - by rewrite Hs'.
  - rewrite scrollState_table. cbn zeta. unfold transitionTable, refreshNeeded.
    change (prevState (set_colliderTop (scrollY h + spaceTop c1) c1))
      with (prevState c1).
    rewrite Hp. cbn [firstMatch]. cbn.
    rewrite Hch, Hct, Hcc, Ht, Hq, Hs', Hx', Hpl', Hpt', Hpw', Hst', Hsb'.
    rewrite Hct.
    repeat case_bool_decide; cbn [andb orb]; try lia; try done.
Qed.

(** X17: the styles can be reset while the stored state stays.  A page in
    [ColliderTop] whose element grows to the height of its container gets a
    resize cycle with the strategy [None]: the styles go back to the
    defaults and the stored state is kept.  When the element then shrinks
    back, with the container box and the scroll offsets as they were, the
    next resize cycle computes [Rest] from the stored [ColliderTop]: the
    element fits in the band and the top of the band is inside the
    container, and yet the five properties keep their defaults. *)
Theorem X17_state_outlives_reset h1 h2 p position :
  let box := _getCoords (containerOffsets h2) (containerAncestors h2) in
  let st := spaceTop (this p) in
  let sb := spaceBottom (this p) in
  prevState (this p) = State.ColliderTop →
  prevStrategy (this p) ≠ Strategy.None →
  listOfRules (this p) = defaultRules position →
  clientHeight h1 ≤ offsetHeight h1 →
  _getCoords (containerOffsets h1) (containerAncestors h1) = box →
  clientWidth h1 = clientWidth h2 →
  scrollX h2 = prevViewportScrollX (this p) →
  offsetHeight h2 < innerHeight h2 - st - sb →
  top box < scrollY h2 + st →
  scrollY h2 + st + offsetHeight h2 < top box + clientHeight h2 →
  let p1 := _calcDims h1 p in
  let p2 := _calcDims h2 p1 in
  (prevState (this p1) = State.ColliderTop
   ∧ strategy (this p1) = Strategy.None)
  ∧ (prevState (this p2) = State.ColliderTop
     ∧ strategy (this p2) = Strategy.Top)
  ∧ ∀ q, q = p1 ∨ q = p2 →
      containerInner_style q !! "position" = Some position
      ∧ containerInner_style q !! "top" = Some "initial"
      ∧ containerInner_style q !! "left" = Some "initial"
      ∧ containerInner_style q !! "width" = Some "initial"
      ∧ containerInner_style q !! "transform" = Some "initial".
Proof.
  cbn zeta.
  intros Hprev Hps Hrules Hnone Hbox Hwidth Hx Hband Htop Hbottom.
  destruct (_calcDims_None_this h1 p Hnone) as [Hthis Hstyle].
  cbn zeta in Hthis, Hstyle.
  change (prevStrategy (measured h1 (this p))) with (prevStrategy (this p))
    in Hthis, Hstyle.
  rewrite decide_True in Hthis by done.
  rewrite decide_True in Hstyle by done.
  destruct (_calcDims_this h1 p)
    as ((_ & _ & Hl1 & Ht1 & Hb1) & _ & Hcw1 & Hcl1 & Hct1 & _ & _ & Hs1 & Hq1 & _).
  cbn zeta in *. unfold classify in Hs1.
  rewrite bool_decide_true in Hs1 by done.
  assert (prevState (this (_calcDims h1 p)) = State.ColliderTop
          ∧ prevViewportScrollX (this (_calcDims h1 p)) = scrollX h2
          ∧ prevContainerLeft (this (_calcDims h1 p))
            = containerLeft (this (_calcDims h1 p))
          ∧ prevContainerTop (this (_calcDims h1 p))
            = containerTop (this (_calcDims h1 p))
          ∧ prevContainerWidth (this (_calcDims h1 p))
            = containerWidth (this (_calcDims h1 p))
          ∧ spacesRemembered (this (_calcDims h1 p)))
    as (Hp1 & Hx1 & Hpl1 & Hpt1 & Hpw1 & Hsp1).
  { rewrite Hthis, Hx, <- Hprev. unfold spacesRemembered.
    generalize (this p). intros c. cbn. done. }
  clear Hthis.
  generalize dependent (_calcDims h1 p). intros p1 **.
  rewrite Hcl1 in Hpl1. rewrite Hct1 in Hpt1. rewrite Hcw1 in Hpw1.
  rewrite Hbox in Hpl1, Hpt1. rewrite Hwidth in Hpw1.
  rewrite <- Hq1 in Hs1. rewrite <- Ht1, <- Hb1 in Hband.
  rewrite <- Ht1 in Htop, Hbottom.
  destruct (scrollState_measured_stale h2 (this p1)
              Hp1 Hs1 Hx1 Hpl1 Hpt1 Hpw1 Hsp1 Hband Htop Hbottom)
    as [Hs2 Hr2].
  destruct (_calcDims_Rest h2 p1 Hs2 Hr2) as (Hst2 & _ & Hp2).
  destruct (_calcDims_this h2 p1)
    as (_ & _ & _ & _ & _ & _ & _ & Hc2 & _).
  cbn zeta in Hc2.
  assert (strategy (this (_calcDims h2 p1)) = Strategy.Top) as Htop2.
  { rewrite Hc2. unfold classify. by rewrite !bool_decide_false by lia. }
  split_and!; [exact Hp1|by rewrite <- Hq1|by rewrite Hp2|exact Htop2|].
  intros q [->| ->]; rewrite ?Hst2, Hstyle, !writeRules_lookup, Hrules.
  all: destruct (defaultRules_lookup position) as (-> & -> & -> & -> & ->).
  all: rewrite lookup_empty; done.
Qed.

Lemma X17_state_outlives_reset_witness :
  let p1 := _calcDims (grownElement 300) fixedPage in
  let p2 := _calcDims (smallElement 300) p1 in
  prevState (this fixedPage) = State.ColliderTop
  ∧ containerInner_style fixedPage !! "position" = Some "fixed"
  ∧ prevState (this p2) = State.ColliderTop
  ∧ strategy (this p2) = Strategy.Top
  ∧ containerInner_style p2 !! "position" = Some "initial".
Proof.
  cbn zeta.
  destruct (X17_state_outlives_reset (grownElement 300) (smallElement 300)
              fixedPage "initial")
    as (_ & (Hp & Hs) & Hstyle); [by vm_compute..|].
  destruct (Hstyle _ (or_intror eq_refl)) as (Hpos & _).
  split_and!; [by vm_compute|by vm_compute|exact Hp|exact Hs|exact Hpos].
Defined.

(** ** The first frame, by the place of the band *)











